(** * mufi-bucket: the Scoop manifest updater and the hash reporter

    A shallow embedding of [update_mufiz.py] and [hashes.py].

    - Python [str] values are byte strings holding their UTF-8 encoding;
      every pattern the scripts search for is ASCII, so [in], [endswith]
      and [lstrip] act on the bytes as they act on the code points.
    - [bytes] values are lists of [Byte.byte].
    - Dictionaries are association lists in insertion order: Python keeps
      that order, [json.dumps] and the download loop depend on it.
    - The network, the manifest file and standard output are an explicit
      world threaded through a state-and-exception monad. *)

From Stdlib Require Import ZArith List String Ascii Bool Lia DecimalString.
From Stdlib Require Import Strings.Byte.
Import ListNotations.

Local Open Scope string_scope.
Local Open Scope Z_scope.

(* ================================================================== *)
(** * Python string operations used by the scripts *)

Module Py.

(** [pat in s] on strings: [pat] occurs at some offset of [s]. *)
Fixpoint str_in (pat s : string) : bool :=
  String.prefix pat s ||
  match s with
  | EmptyString => false
  | String _ s' => str_in pat s'
  end.

(** [s.endswith(suf)]. *)
Fixpoint endswith (s suf : string) : bool :=
  String.eqb s suf ||
  match s with
  | EmptyString => false
  | String _ s' => endswith s' suf
  end.

(** [c in chars] for a character. *)
Fixpoint char_in (c : ascii) (chars : string) : bool :=
  match chars with
  | EmptyString => false
  | String d chars' => Ascii.eqb c d || char_in c chars'
  end.

(** [s.lstrip(chars)]: drop leading characters while they belong to the
    set [chars]. *)
Fixpoint lstrip (chars s : string) : string :=
  match s with
  | EmptyString => EmptyString
  | String c s' => if char_in c chars then lstrip chars s' else s
  end.

(** [x in xs] for a list of strings ([sys.argv]). *)
Definition list_in (x : string) (xs : list string) : bool :=
  existsb (String.eqb x) xs.

(** [sep.join(xs)]. *)
Fixpoint join (sep : string) (xs : list string) : string :=
  match xs with
  | [] => ""
  | [x] => x
  | x :: rest => x ++ sep ++ join sep rest
  end.

(** [str(n)] for an integer. *)
Definition str_int (n : Z) : string := NilZero.string_of_int (Z.to_int n).

(** [repr] of a list of strings that hold no quote, backslash or
    non-printable character (the canonical labels): [['64bit', '32bit']]. *)
Definition repr_str_list (xs : list string) : string :=
  "[" ++ join ", " (map (fun x => "'" ++ x ++ "'") xs) ++ "]".

End Py.

(* ================================================================== *)
(** * Dictionaries in insertion order *)

Module Dict.
Section Ops.
Context {V : Type}.

Definition t := list (string * V).

(** [d.get(k)] / [d[k]]. *)
Fixpoint get (d : t) (k : string) : option V :=
  match d with
  | [] => None
  | (k', v) :: d' => if String.eqb k k' then Some v else get d' k
  end.

(** [d[k] = v]: an existing key keeps its position and takes the new
    value; a new key is appended. *)
Fixpoint set (d : t) (k : string) (v : V) : t :=
  match d with
  | [] => [(k, v)]
  | (k', v') :: d' =>
      if String.eqb k k' then (k', v) :: d' else (k', v') :: set d' k v
  end.

Definition keys (d : t) : list string := map fst d.

Definition mem (d : t) (k : string) : bool :=
  match get d k with Some _ => true | None => false end.
End Ops.
Arguments t : clear implicits.
End Dict.

(* ================================================================== *)
(** * hashlib.sha256 (FIPS 180-4) *)

Module Hashlib.

Local Open Scope list_scope.

Definition bytes := list byte.

Definition mask32 : Z := 0xFFFFFFFF.
Definition add32 (x y : Z) : Z := Z.land (x + y) mask32.
Definition rotr (n x : Z) : Z :=
  Z.lor (Z.shiftr x n) (Z.land (Z.shiftl x (32 - n)) mask32).
Definition not32 (x : Z) : Z := Z.lxor x mask32.

Definition Ch (x y z : Z) := Z.lxor (Z.land x y) (Z.land (not32 x) z).
Definition Maj (x y z : Z) :=
  Z.lxor (Z.lxor (Z.land x y) (Z.land x z)) (Z.land y z).
Definition Sigma0 x := Z.lxor (Z.lxor (rotr 2 x) (rotr 13 x)) (rotr 22 x).
Definition Sigma1 x := Z.lxor (Z.lxor (rotr 6 x) (rotr 11 x)) (rotr 25 x).
Definition sigma0 x := Z.lxor (Z.lxor (rotr 7 x) (rotr 18 x)) (Z.shiftr x 3).
Definition sigma1 x := Z.lxor (Z.lxor (rotr 17 x) (rotr 19 x)) (Z.shiftr x 10).

(** The largest [r] below [2 ^ bits] with [r ^ k <= n], one bit at a
    time from the top. *)
Fixpoint root_bits (k n : Z) (bits : nat) (r : Z) : Z :=
  match bits with
  | O => r
  | S b =>
      let c := r + 2 ^ Z.of_nat b in
      root_bits k n b (if c ^ k <=? n then c else r)
  end.

(** The first 32 bits of the fractional part of the [k]-th root of [p]. *)
Definition frac_root (k p : Z) : Z :=
  Z.land (root_bits k (p * 2 ^ (32 * k)) 36 0) mask32.

Definition primes : list Z :=
  [ 2; 3; 5; 7; 11; 13; 17; 19; 23; 29; 31; 37; 41; 43; 47; 53;
    59; 61; 67; 71; 73; 79; 83; 89; 97; 101; 103; 107; 109; 113; 127; 131;
    137; 139; 149; 151; 157; 163; 167; 173; 179; 181; 191; 193; 197; 199;
    211; 223; 227; 229; 233; 239; 241; 251; 257; 263; 269; 271; 277; 281;
    283; 293; 307; 311 ].

(** The round constants: the fractional parts of the cube roots of the
    first 64 primes, from [0x428a2f98] to [0xc67178f2]. *)
Definition K : list Z := Eval vm_compute in map (frac_root 3) primes.

(** The eight working words. *)
Record hstate := HState {
  ha : Z; hb : Z; hc : Z; hd : Z; he : Z; hf : Z; hg : Z; hh : Z
}.

Definition H0 : hstate :=
  HState 0x6a09e667 0xbb67ae85 0x3c6ef372 0xa54ff53a
         0x510e527f 0x9b05688c 0x1f83d9ab 0x5be0cd19.

Definition byteZ (b : byte) : Z := Z.of_N (Byte.to_N b).

(** Big-endian 32-bit words of a byte string (a trailing partial word is
    dropped; blocks are 64 bytes long). *)
Fixpoint words_of (l : bytes) : list Z :=
  match l with
  | b0 :: b1 :: b2 :: b3 :: rest =>
      (byteZ b0 * 16777216 + byteZ b1 * 65536 + byteZ b2 * 256 + byteZ b3)
        :: words_of rest
  | _ => []
  end.

(** Message schedule, most recent word first: [W_t] from [W_(t-2)],
    [W_(t-7)], [W_(t-15)] and [W_(t-16)]. *)
Fixpoint expand (n : nat) (rw : list Z) : list Z :=
  match n with
  | O => rw
  | S n' =>
      let wt := add32 (add32 (sigma1 (nth 1 rw 0)) (nth 6 rw 0))
                      (add32 (sigma0 (nth 14 rw 0)) (nth 15 rw 0)) in
      expand n' (wt :: rw)
  end.

Definition schedule (blk : bytes) : list Z :=
  rev (expand 48 (rev (words_of blk))).

Definition round (s : hstate) (kw : Z * Z) : hstate :=
  let '(k, w) := kw in
  let t1 := add32 (add32 (add32 (add32 (hh s) (Sigma1 (he s)))
                                (Ch (he s) (hf s) (hg s))) k) w in
  let t2 := add32 (Sigma0 (ha s)) (Maj (ha s) (hb s) (hc s)) in
  HState (add32 t1 t2) (ha s) (hb s) (hc s)
         (add32 (hd s) t1) (he s) (hf s) (hg s).

(** One 64-byte block. *)
Definition compress (h : hstate) (blk : bytes) : hstate :=
  let s := fold_left round (combine K (schedule blk)) h in
  HState (add32 (ha h) (ha s)) (add32 (hb h) (hb s))
         (add32 (hc h) (hc s)) (add32 (hd h) (hd s))
         (add32 (he h) (he s)) (add32 (hf h) (hf s))
         (add32 (hg h) (hg s)) (add32 (hh h) (hh s)).

(** Consume the complete blocks of [l]; what is left (under 64 bytes when
    the fuel suffices) is returned with the state. *)
Fixpoint absorb_fuel (n : nat) (h : hstate) (l : bytes) : hstate * bytes :=
  match n with
  | O => (h, l)
  | S n' =>
      if (List.length l <? 64)%nat then (h, l)
      else absorb_fuel n' (compress h (firstn 64 l)) (skipn 64 l)
  end.

Definition absorb (h : hstate) (l : bytes) : hstate * bytes :=
  absorb_fuel (List.length l) h l.

Definition be64 (n : Z) : bytes :=
  map (fun i => match Byte.of_N (Z.to_N (Z.land (Z.shiftr n (8 * i)) 255)) with
                | Some b => b
                | None => x00
                end)
      [7; 6; 5; 4; 3; 2; 1; 0].

(** Padding of a message of [len] bytes: [0x80], zeros up to 56 modulo
    64, the bit length on 64 bits. *)
Definition padding (len : Z) : bytes :=
  x80 :: repeat x00 (Z.to_nat ((55 - len) mod 64))
      ++ be64 (Z.land (8 * len) 0xFFFFFFFFFFFFFFFF).

(** The hash object: chaining value, pending bytes, bytes seen. *)
Record sha256_obj := Sha256 {
  chain : hstate;
  pending : bytes;
  seen : Z
}.

(** [hashlib.sha256()]. *)
Definition new : sha256_obj := Sha256 H0 [] 0.

(** [h.update(data)]. *)
Definition update (o : sha256_obj) (data : bytes) : sha256_obj :=
  let '(h, rest) := absorb (chain o) (pending o ++ data) in
  Sha256 h rest (seen o + Z.of_nat (List.length data)).

(** [hashlib.sha256(data)]: a new object fed [data]. *)
Definition sha256 (data : bytes) : sha256_obj := update new data.

(** [h.digest()] as the eight final words. *)
Definition digest (o : sha256_obj) : hstate :=
  fst (absorb (chain o) (pending o ++ padding (seen o))).

Definition hex_digit (n : Z) : ascii :=
  nth (Z.to_nat n)
      (list_ascii_of_string "0123456789abcdef") "0"%char.

Definition hex_word (w : Z) : list ascii :=
  map (fun i => hex_digit (Z.land (Z.shiftr w (4 * i)) 15))
      [7; 6; 5; 4; 3; 2; 1; 0].

(** [h.hexdigest()]. *)
Definition hexdigest (o : sha256_obj) : string :=
  let d := digest o in
  string_of_list_ascii
    (hex_word (ha d) ++ hex_word (hb d) ++ hex_word (hc d) ++ hex_word (hd d)
     ++ hex_word (he d) ++ hex_word (hf d) ++ hex_word (hg d)
     ++ hex_word (hh d)).

(** The bytes of an ASCII string, for test vectors. *)
Definition bytes_of_string (s : string) : bytes :=
  map byte_of_ascii (list_ascii_of_string s).

End Hashlib.

(* ================================================================== *)
(** * JSON values and json.dumps *)

Module Json.

Local Set Warnings "-register-all".

(** What [json.load] builds.  A float is carried by its [repr]: the
    scripts never compute with one, they only write it back. *)
Inductive value :=
| Null
| Bool (b : bool)
| Int (n : Z)
| Float (repr : string)
| Str (s : string)
| Arr (items : list value)
| Obj (members : list (string * value)).

(** Python truth value: [if x:] / [if not x:]. *)
Definition truthy (v : value) : bool :=
  match v with
  | Null => false
  | Bool b => b
  | Int n => negb (n =? 0)
  | Float r => negb (String.eqb r "0.0" || String.eqb r "-0.0")
  | Str s => negb (String.eqb s "")
  | Arr l => match l with [] => false | _ => true end
  | Obj kv => match kv with [] => false | _ => true end
  end.

(** [type(v).__name__]. *)
Definition type_name (v : value) : string :=
  match v with
  | Null => "NoneType"
  | Bool _ => "bool"
  | Int _ => "int"
  | Float _ => "float"
  | Str _ => "str"
  | Arr _ => "list"
  | Obj _ => "dict"
  end.

(** [s == v] for a string [s] and a loaded value [v]. *)
Definition eq_str (s : string) (v : value) : bool :=
  match v with
  | Str s' => String.eqb s s'
  | _ => false
  end.

Definition quote : ascii := "034"%char.
Definition backslash : ascii := "092"%char.
Definition newline : ascii := "010"%char.

Definition code (c : ascii) : Z := Z.of_N (N_of_ascii c).

Definition hex4 (n : Z) : string :=
  string_of_list_ascii
    (map (fun i => Hashlib.hex_digit (Z.land (Z.shiftr n (4 * i)) 15))
         [3; 2; 1; 0]).

Definition u_escape (n : Z) : string := String backslash ("u" ++ hex4 n).

(** [ESCAPE_DCT]: the backslash, the quote and the control characters. *)
Definition escape_dct (n : Z) : option string :=
  if n =? 92 then Some "\\"
  else if n =? 34 then Some (String backslash (String quote ""))
  else if n =? 8 then Some "\b"
  else if n =? 12 then Some "\f"
  else if n =? 10 then Some "\n"
  else if n =? 13 then Some "\r"
  else if n =? 9 then Some "\t"
  else if n <? 32 then Some (u_escape n)
  else None.

(** [encode_basestring] ([ensure_ascii=False]), without the quotes. *)
Fixpoint escape_raw (s : string) : string :=
  match s with
  | EmptyString => ""
  | String c s' =>
      match escape_dct (code c) with
      | Some e => e ++ escape_raw s'
      | None => String c (escape_raw s')
      end
  end.

Definition is_cont (c : ascii) : bool := (128 <=? code c) && (code c <? 192).

(** The code points of a UTF-8 string; a byte that starts no well-formed
    sequence stands for itself. *)
Fixpoint codepoints (l : list ascii) : list Z :=
  match l with
  | [] => []
  | c0 :: t0 =>
      let n0 := code c0 in
      match t0 with
      | c1 :: t1 =>
          if (192 <=? n0) && (n0 <? 224) && is_cont c1 then
            ((n0 - 192) * 64 + (code c1 - 128)) :: codepoints t1
          else
            match t1 with
            | c2 :: t2 =>
                if (224 <=? n0) && (n0 <? 240) && is_cont c1 && is_cont c2
                then ((n0 - 224) * 4096 + (code c1 - 128) * 64
                      + (code c2 - 128)) :: codepoints t2
                else
                  match t2 with
                  | c3 :: t3 =>
                      if (240 <=? n0) && (n0 <? 248) && is_cont c1
                         && is_cont c2 && is_cont c3
                      then ((n0 - 240) * 262144 + (code c1 - 128) * 4096
                            + (code c2 - 128) * 64 + (code c3 - 128))
                             :: codepoints t3
                      else n0 :: codepoints t0
                  | [] => n0 :: codepoints t0
                  end
            | [] => n0 :: codepoints t0
            end
      | [] => [n0]
      end
  end.

(** One code point under [ensure_ascii=True]. *)
Definition escape_point (n : Z) : string :=
  match escape_dct n with
  | Some e => e
  | None =>
      if (32 <=? n) && (n <=? 126) then String (ascii_of_N (Z.to_N n)) ""
      else if n <? 65536 then u_escape n
      else
        let m := n - 65536 in
        u_escape (Z.lor 55296 (Z.land (Z.shiftr m 10) 1023))
        ++ u_escape (Z.lor 56320 (Z.land m 1023))
  end.

(** [encode_basestring_ascii], without the quotes. *)
Definition escape_ascii (s : string) : string :=
  String.concat "" (map escape_point (codepoints (list_ascii_of_string s))).

Definition encode_str (ensure_ascii : bool) (s : string) : string :=
  String quote
    ((if ensure_ascii then escape_ascii s else escape_raw s)
     ++ String quote "").

Fixpoint spaces (n : nat) : string :=
  match n with O => "" | S n' => String " " (spaces n') end.

(** The line break before an item at nesting [level]; nothing without
    [indent]. *)
Definition newline_indent (indent : option nat) (level : nat) : string :=
  match indent with
  | None => ""
  | Some n => String newline (spaces (n * level))
  end.

Definition item_separator (indent : option nat) : string :=
  match indent with None => ", " | Some _ => "," end.

(** [floatstr]: the [repr] of the float, but for the three values that
    have none in JSON. *)
Definition float_str (r : string) : string :=
  if String.eqb r "nan" then "NaN"
  else if String.eqb r "inf" then "Infinity"
  else if String.eqb r "-inf" then "-Infinity"
  else r.

(** [json.dumps(v, indent=indent, ensure_ascii=ensure_ascii)] at a
    nesting level. *)
Fixpoint encode (indent : option nat) (ensure_ascii : bool) (level : nat)
                (v : value) : string :=
  let sep := item_separator indent ++ newline_indent indent (S level) in
  match v with
  | Null => "null"
  | Bool true => "true"
  | Bool false => "false"
  | Int n => Py.str_int n
  | Float r => float_str r
  | Str s => encode_str ensure_ascii s
  | Arr [] => "[]"
  | Arr (x :: xs) =>
      "[" ++ newline_indent indent (S level)
      ++ encode indent ensure_ascii (S level) x
      ++ (fix rest (l : list value) : string :=
            match l with
            | [] => ""
            | y :: l' =>
                sep ++ encode indent ensure_ascii (S level) y ++ rest l'
            end) xs
      ++ newline_indent indent level ++ "]"
  | Obj [] => "{}"
  | Obj ((k, x) :: kv) =>
      "{" ++ newline_indent indent (S level)
      ++ encode_str ensure_ascii k ++ ": "
      ++ encode indent ensure_ascii (S level) x
      ++ (fix rest (l : list (string * value)) : string :=
            match l with
            | [] => ""
            | (k', y) :: l' =>
                sep ++ encode_str ensure_ascii k' ++ ": "
                ++ encode indent ensure_ascii (S level) y ++ rest l'
            end) kv
      ++ newline_indent indent level ++ "}"
  end.

Definition dumps (indent : option nat) (ensure_ascii : bool) (v : value)
  : string :=
  encode indent ensure_ascii 0 v.

End Json.

(* ================================================================== *)
(** * The world: network, manifest file, standard output *)

(** An asset of a release, as the releases API lists it. *)
Record asset := Asset {
  name : string;
  browser_download_url : string
}.

(** The decoded body of [GET /releases/latest].  [assets] is [None] when
    the key is absent ([release.get("assets", [])]). *)
Record release := Release {
  tag_name : string;
  assets : option (list asset)
}.

(** A response to a GET on a download URL.  The body arrives in [chunks];
    [broken] is the error that ends the transfer after them, if any. *)
Record response := Response {
  status_code : Z;
  reason : string;
  chunks : list Hashlib.bytes;
  broken : option string
}.

Inductive http_result :=
| Unreachable (err : string)
| Answered (r : response).

(** The releases endpoint: a request error (connection, status or body
    decoding, all of them [requests.RequestException]) or a release. *)
Inductive api_result :=
| ApiError (err : string)
| ApiRelease (r : release).

Inductive parsed :=
| Parsed (v : Json.value)
| Malformed (err : string).

(** A failing write: the error and what it leaves in the file. *)
Record write_failure := WriteFailure {
  write_error : string;
  left_on_disk : option string
}.

Record World := {
  api : api_result;
  web : string -> http_result;
  (** contents of [bucket/MufiZ.json]; [None] when the file is missing *)
  disk : option string;
  write_fault : option write_failure;
  (** the JSON decoder of [json.load] *)
  json_loads : string -> parsed;
  (** [repr] of a loaded value *)
  py_repr : Json.value -> string
}.

Definition with_disk (w : World) (d : option string) : World :=
  {| api := api w; web := web w; disk := d; write_fault := write_fault w;
     json_loads := json_loads w; py_repr := py_repr w |}.

Inductive event :=
| EPrint (text : string)
| EGet (url : string)
| ERead
| EWrite (text : string).

Inductive exn :=
| RequestException (msg : string)
| FileNotFoundError (msg : string)
| JSONDecodeError (msg : string)
| OSError (msg : string)
| AttributeError (msg : string)
| SystemExit (code : Z).

Definition exn_str (e : exn) : string :=
  match e with
  | RequestException m | FileNotFoundError m | JSONDecodeError m
  | OSError m | AttributeError m => m
  | SystemExit c => Py.str_int c
  end.

Inductive result (A : Type) :=
| Ok (a : A)
| Raise (e : exn).
Arguments Ok {A} a.
Arguments Raise {A} e.

Record Sys := {
  world : World;
  trace : list event
}.

(** State and exceptions. *)
Definition M (A : Type) : Type := Sys -> result A * Sys.

Definition ret {A} (a : A) : M A := fun s => (Ok a, s).

Definition bind {A B} (m : M A) (k : A -> M B) : M B :=
  fun s =>
    match m s with
    | (Ok a, s') => k a s'
    | (Raise e, s') => (Raise e, s')
    end.

Definition raise {A} (e : exn) : M A := fun s => (Raise e, s).

(** [try: m  except <handles> as e: h e]. *)
Definition try_except {A} (m : M A) (handles : exn -> bool) (h : exn -> M A)
  : M A :=
  fun s =>
    match m s with
    | (Ok a, s') => (Ok a, s')
    | (Raise e, s') => if handles e then h e s' else (Raise e, s')
    end.

Declare Scope monad_scope.
Delimit Scope monad_scope with monad.
Notation "x <- m ;; k" := (bind m (fun x => k))
  (at level 61, m at next level, right associativity) : monad_scope.
Notation "m ;; k" := (bind m (fun _ => k))
  (at level 61, right associativity) : monad_scope.
Local Open Scope monad_scope.

Definition emit (e : event) : M unit :=
  fun s => (Ok tt, {| world := world s; trace := (trace s ++ [e])%list |}).

Definition print (text : string) : M unit := emit (EPrint text).

Definition get_world : M World := fun s => (Ok (world s), s).

Definition sys_exit {A} (code : Z) : M A := raise (SystemExit code).

Definition is_RequestException (e : exn) : bool :=
  match e with RequestException _ => true | _ => false end.

(** [except Exception]: everything but [SystemExit]. *)
Definition is_Exception (e : exn) : bool :=
  match e with SystemExit _ => false | _ => true end.

(** [response.raise_for_status()]. *)
Definition raise_for_status (url : string) (r : response) : M unit :=
  if (400 <=? status_code r) && (status_code r <? 500) then
    raise (RequestException (Py.str_int (status_code r) ++ " Client Error: "
                             ++ reason r ++ " for url: " ++ url))
  else if (500 <=? status_code r) && (status_code r <? 600) then
    raise (RequestException (Py.str_int (status_code r) ++ " Server Error: "
                             ++ reason r ++ " for url: " ++ url))
  else ret tt.

(** [session.get(url, stream=True)]: the body is not read yet. *)
Definition get_stream (url : string) : M response :=
  emit (EGet url) ;;
  w <- get_world ;;
  match web w url with
  | Unreachable err => raise (RequestException err)
  | Answered r => ret r
  end.

(** [requests.get(url)]: the whole body is read before it returns. *)
Definition get_whole (url : string) : M response :=
  r <- get_stream url ;;
  match broken r with
  | Some err => raise (RequestException err)
  | None => ret r
  end.

(** [response.content]. *)
Definition content (r : response) : Hashlib.bytes := List.concat (chunks r).

(** The process exit status of a script run. *)
Definition exit_status {A} (r : result A) : Z :=
  match r with
  | Ok _ => 0
  | Raise (SystemExit c) => c
  | Raise _ => 1
  end.

Definition boot (w : World) : Sys := {| world := w; trace := [] |}.

(** Running a script in a world. *)
Definition run {A} (m : M A) (w : World) : result A * Sys := m (boot w).

(* ================================================================== *)
(** * update_mufiz.py *)

Module UpdateMufiz.

Definition GITHUB_REPO : string := "Mufi-Lang/MufiZ".
Definition MANIFEST_PATH : string := "bucket/MufiZ.json".

(** Substring of the asset name, Scoop architecture; in the order of the
    dictionary literal. *)
Definition ARCH_MAPPINGS : list (string * string) :=
  [ ("x86_64-windows", "64bit");
    ("x86-windows-gnu", "32bit");
    ("aarch64-windows", "arm64") ].

Definition latest_url : string :=
  "https://api.github.com/repos/" ++ GITHUB_REPO ++ "/releases/latest".

Definition get_latest_release : M (option release) :=
  try_except
    (emit (EGet latest_url) ;;
     w <- get_world ;;
     match api w with
     | ApiError err => raise (RequestException err)
     | ApiRelease r => ret (Some r)
     end)
    is_RequestException
    (fun e =>
       print ("Error fetching latest release: " ++ exn_str e) ;;
       ret None).

(** The loop of [download_and_hash]: one [update] per chunk, then the
    transfer error if the stream breaks. *)
Definition hash_stream (r : response) : M Hashlib.sha256_obj :=
  let sha256_hash := fold_left Hashlib.update (chunks r) Hashlib.new in
  match broken r with
  | Some err => raise (RequestException err)
  | None => ret sha256_hash
  end.

Definition download_and_hash (url : string) : M (option string) :=
  try_except
    (print ("Downloading " ++ url ++ "...") ;;
     response <- get_stream url ;;
     raise_for_status url response ;;
     sha256_hash <- hash_stream response ;;
     ret (Some (Hashlib.hexdigest sha256_hash)))
    is_RequestException
    (fun e =>
       print ("Error downloading " ++ url ++ ": " ++ exn_str e) ;;
       ret None).

(** [open(MANIFEST_PATH, "r")] and [json.load]. *)
Definition read_manifest : M Json.value :=
  emit ERead ;;
  w <- get_world ;;
  match disk w with
  | None =>
      raise (FileNotFoundError
               ("[Errno 2] No such file or directory: '"
                ++ MANIFEST_PATH ++ "'"))
  | Some text =>
      match json_loads w text with
      | Malformed err => raise (JSONDecodeError err)
      | Parsed v => ret v
      end
  end.

Definition load_manifest : M (option Json.value) :=
  try_except
    (v <- read_manifest ;; ret (Some v))
    (fun e => match e with
              | FileNotFoundError _ | JSONDecodeError _ => true
              | _ => false
              end)
    (fun e => print ("Error loading manifest: " ++ exn_str e) ;; ret None).

(** [open(MANIFEST_PATH, "w")] and [json.dump]. *)
Definition write_manifest (text : string) : M unit :=
  fun s =>
    match write_fault (world s) with
    | None =>
        (Ok tt, {| world := with_disk (world s) (Some text);
                   trace := (trace s ++ [EWrite text])%list |})
    | Some f =>
        (Raise (OSError (write_error f)),
         {| world := with_disk (world s) (left_on_disk f);
            trace := (trace s ++ [EWrite text])%list |})
    end.

Definition save_manifest (manifest : Json.value) : M bool :=
  try_except
    (write_manifest (Json.dumps (Some 4%nat) false manifest) ;; ret true)
    is_Exception
    (fun e => print ("Error saving manifest: " ++ exn_str e) ;; ret false).

(** The inner loop of [find_asset_urls]: the first table entry whose key
    occurs in the name of a [.zip] asset stores the URL and breaks. *)
Fixpoint match_arch (table : list (string * string)) (a : asset)
                    (urls : Dict.t string) : Dict.t string :=
  match table with
  | [] => urls
  | (arch_key, scoop_arch) :: table' =>
      if Py.str_in arch_key (name a) && Py.endswith (name a) ".zip"
      then Dict.set urls scoop_arch (browser_download_url a)
      else match_arch table' a urls
  end.

Definition find_asset_urls (r : release) (version : string)
  : Dict.t string :=
  fold_left (fun urls a => match_arch ARCH_MAPPINGS a urls)
            (match assets r with Some l => l | None => [] end)
            [].

Definition arch_entry (url hash_value : string) : Json.value :=
  Json.Obj [("url", Json.Str url); ("hash", Json.Str hash_value)].

(** The loop over [asset_urls.items()]: [None] stands for the
    [return False] of a failed download. *)
Fixpoint hash_assets (items : list (string * string))
                     (updated_archs : Dict.t Json.value)
  : M (option (Dict.t Json.value)) :=
  match items with
  | [] => ret (Some updated_archs)
  | (arch, url) :: items' =>
      print ("Processing " ++ arch ++ " architecture...") ;;
      hash_value <- download_and_hash url ;;
      match hash_value with
      | Some h =>
          if negb (String.eqb h "") then
            print ("  ‚úì " ++ arch ++ ": " ++ h) ;;
            hash_assets items' (Dict.set updated_archs arch (arch_entry url h))
          else
            print ("  ‚úó Failed to process " ++ arch) ;;
            ret None
      | None =>
          print ("  ‚úó Failed to process " ++ arch) ;;
          ret None
      end
  end.

(** [str(v)] inside an f-string. *)
Definition py_str (w : World) (v : Json.value) : string :=
  match v with
  | Json.Str s => s
  | _ => py_repr w v
  end.

(** The version the release announces. *)
Definition release_version (r : release) : string :=
  Py.lstrip "v" (tag_name r).

Definition updated_manifest (manifest : Dict.t Json.value)
           (version : string) (updated_archs : Dict.t Json.value)
  : Dict.t Json.value :=
  Dict.set (Dict.set manifest "version" (Json.Str version))
           "architecture" (Json.Obj updated_archs).

(** [update_manifest] once the versions are known to differ: from
    "Updating from version ..." to the end of the method. *)
Definition apply_update (dry_run : bool) (release : release)
           (version : string) (manifest : Dict.t Json.value)
           (current_version : Json.value) : M bool :=
  w <- get_world ;;
  print ("Updating from version " ++ py_str w current_version
         ++ " to " ++ version) ;;
  let asset_urls := find_asset_urls release version in
  (if negb (List.length asset_urls =? 3)%nat then
     print ("Warning: Expected 3 assets, found "
            ++ Py.str_int (Z.of_nat (List.length asset_urls))) ;;
     print ("Found assets: " ++ Py.repr_str_list (Dict.keys asset_urls))
   else ret tt) ;;
  updated_archs <- hash_assets asset_urls [] ;;
  match updated_archs with
  | None => ret false
  | Some updated_archs =>
  let manifest := updated_manifest manifest version updated_archs in
  if dry_run then
    print (String Json.newline "--- DRY RUN MODE ---") ;;
    print "Would update manifest with:" ;;
    print (Json.dumps (Some 2%nat) true
             (Json.Obj [("version", Json.Str version);
                        ("architecture", Json.Obj updated_archs)])) ;;
    print ("‚úì Dry run completed - would update MufiZ.json to version "
           ++ version) ;;
    ret true
  else
    print "Saving updated manifest..." ;;
    saved <- save_manifest (Json.Obj manifest) ;;
    if saved then
      print ("‚úì Successfully updated MufiZ.json to version " ++ version) ;;
      ret true
    else
      print "‚úó Failed to save manifest" ;;
      ret false
  end.

(** [manifest.get("version", "unknown")]. *)
Definition current_version_of (manifest : Dict.t Json.value) : Json.value :=
  match Dict.get manifest "version" with
  | Some v => v
  | None => Json.Str "unknown"
  end.

Definition update_manifest (dry_run : bool) : M bool :=
  print "Fetching latest release information..." ;;
  release <- get_latest_release ;;
  match release with
  | None => ret false
  | Some release =>
  let version := release_version release in
  print ("Latest version: " ++ version) ;;
  print "Loading current manifest..." ;;
  manifest <- load_manifest ;;
  match manifest with
  | None => ret false
  | Some manifest =>
  if negb (Json.truthy manifest) then ret false else
  match manifest with
  | Json.Obj manifest =>
      let current_version := current_version_of manifest in
      w <- get_world ;;
      print ("Current version: " ++ py_str w current_version) ;;
      if Json.eq_str version current_version then
        print "Manifest is already up to date!" ;;
        ret true
      else
        apply_update dry_run release version manifest current_version
  | other =>
      raise (AttributeError ("'" ++ Json.type_name other
                             ++ "' object has no attribute 'get'"))
  end
  end
  end.

(** [os.path.exists(MANIFEST_PATH)]. *)
Definition path_exists : M bool :=
  w <- get_world ;;
  ret (match disk w with Some _ => true | None => false end).

Definition main (argv : list string) : M unit :=
  let dry_run := Py.list_in "--dry-run" argv || Py.list_in "-n" argv in
  found <- path_exists ;;
  if negb found then
    print ("Error: Manifest file " ++ MANIFEST_PATH ++ " not found!") ;;
    print "Please run this script from the root of the mufi-bucket repository." ;;
    sys_exit 1
  else
  (if dry_run then
     print "Running in DRY RUN mode - no files will be modified"
   else ret tt) ;;
  success <- update_manifest dry_run ;;
  if success then
    (if dry_run then
       print (String Json.newline "üéâ Dry run completed successfully!")
     else
       print (String Json.newline "üéâ Update completed successfully!")) ;;
    sys_exit 0
  else
    print (String Json.newline "‚ùå Update failed!") ;;
    sys_exit 1.

End UpdateMufiz.

(* ================================================================== *)
(** * hashes.py *)

Module Hashes.

Definition TAG : string := "next-experimental".
Definition VERSION : string := "0.10.0".

Definition link (triple : string) : string :=
  "https://github.com/Mustafif/MufiZ/releases/download/" ++ TAG
  ++ "/mufiz_" ++ VERSION ++ "_" ++ triple ++ ".zip".

Definition links : list string :=
  [ link "x86_64-windows"; link "x86-windows-gnu"; link "aarch64-windows" ].

(** [enumerate(xs)] from index [i]. *)
Fixpoint enumerate_from {A} (i : nat) (xs : list A) : list (nat * A) :=
  match xs with
  | [] => []
  | x :: xs' => (i, x) :: enumerate_from (S i) xs'
  end.

(** The body of the loop: fetch, hash, store under the label of the
    index. *)
Fixpoint collect (items : list (nat * string)) (output : Dict.t Json.value)
  : M (Dict.t Json.value) :=
  match items with
  | [] => ret output
  | (i, lnk) :: items' =>
      response <- get_whole lnk ;;
      let hash := Hashlib.hexdigest (Hashlib.sha256 (content response)) in
      let entry :=
        Json.Obj [("url", Json.Str lnk); ("hash", Json.Str hash)] in
      collect items'
        (if (i =? 0)%nat then Dict.set output "64bit" entry
         else if (i =? 1)%nat then Dict.set output "32bit" entry
         else if (i =? 2)%nat then Dict.set output "arm64" entry
         else output)
  end.

Definition main : M unit :=
  output <- collect (enumerate_from 0 links) [] ;;
  let json_output := Json.dumps None true (Json.Obj output) in
  print json_output.

End Hashes.

(* ================================================================== *)
(** * Notions the statements use *)

(** The label an asset resolves to, as the specification has it: the asset
    must be a [.zip]; the first table entry whose key occurs in its name
    gives the label. *)
Definition resolve (a : asset) : option string :=
  if Py.endswith (name a) ".zip" then
    option_map snd
      (find (fun kv => Py.str_in (fst kv) (name a)) UpdateMufiz.ARCH_MAPPINGS)
  else None.

Definition resolves_to (label : string) (a : asset) : bool :=
  match resolve a with
  | Some l => String.eqb label l
  | None => false
  end.

(** URL of the first asset of the list that resolves to [label]. *)
Definition first_url (l : list asset) (label : string) : option string :=
  option_map browser_download_url (find (resolves_to label) l).

(** URL of the last asset of the list that resolves to [label]. *)
Fixpoint last_url (l : list asset) (label : string) : option string :=
  match l with
  | [] => None
  | a :: l' =>
      match last_url l' label with
      | Some u => Some u
      | None => if resolves_to label a then Some (browser_download_url a)
                else None
      end
  end.

Definition assets_of (r : release) : list asset :=
  match assets r with Some l => l | None => [] end.

(** The tag with one leading [v] removed. *)
Definition strip_one_v (tag : string) : string :=
  match tag with
  | String "v" rest => rest
  | _ => tag
  end.

(** [n] times the letter [v]. *)
Fixpoint vs (n : nat) : string :=
  match n with O => "" | S n' => String "v" (vs n') end.

(** The texts handed to [open(MANIFEST_PATH, "w")] along a trace. *)
Fixpoint writes (tr : list event) : list string :=
  match tr with
  | [] => []
  | EWrite t :: tr' => t :: writes tr'
  | _ :: tr' => writes tr'
  end.

(** The URLs requested along a trace. *)
Fixpoint requests (tr : list event) : list string :=
  match tr with
  | [] => []
  | EGet u :: tr' => u :: requests tr'
  | _ :: tr' => requests tr'
  end.

(** The lines printed along a trace. *)
Fixpoint printed (tr : list event) : list string :=
  match tr with
  | [] => []
  | EPrint t :: tr' => t :: printed tr'
  | _ :: tr' => printed tr'
  end.

Definition good_status (r : response) : bool :=
  (status_code r <? 400) || (600 <=? status_code r).

(** What a download of [url] yields in world [w]: the SHA-256 of the whole
    body when the request is answered with a good status and the transfer
    completes, nothing otherwise. *)
Definition body_digest (w : World) (url : string) : option string :=
  match web w url with
  | Unreachable _ => None
  | Answered r =>
      if good_status r then
        match broken r with
        | None => Some (Hashlib.hexdigest (Hashlib.sha256 (content r)))
        | Some _ => None
        end
      else None
  end.

Definition download_fails (w : World) (url : string) : bool :=
  match body_digest w url with Some _ => false | None => true end.

(** The entry stored for one resolved URL: its label with the URL and the
    digest of the body. *)
Definition entry_of (w : World) (kv : string * string)
  : string * Json.value :=
  (fst kv,
   UpdateMufiz.arch_entry (snd kv)
     (match body_digest w (snd kv) with Some h => h | None => "" end)).

(** The architecture section built from the resolved URLs when every
    download succeeds. *)
Definition arch_section (w : World) (urls : Dict.t string)
  : Dict.t Json.value :=
  map (entry_of w) urls.

(** No download of a resolved URL fails. *)
Definition all_downloads_ok (w : World) (urls : Dict.t string) : bool :=
  negb (existsb (fun kv => download_fails w (snd kv)) urls).

Definition dry_run_flag (argv : list string) : bool :=
  Py.list_in "--dry-run" argv || Py.list_in "-n" argv.

Definition is_hex (c : ascii) : bool :=
  Py.char_in c "0123456789abcdef".

Definition single_line (s : string) : Prop :=
  ~ In Json.newline (list_ascii_of_string s).

(** [s] after the events [extra]. *)
Definition extend (s : Sys) (extra : list event) : Sys :=
  {| world := world s; trace := (trace s ++ extra)%list |}.

(** [m] changes nothing in the world and opens no file for writing. *)
Definition frames {A} (m : M A) : Prop :=
  forall s, exists extra, snd (m s) = extend s extra /\ writes extra = [].

(** The text [save_manifest] writes after a complete update. *)
Definition committed_text (w : World) (rel : release)
           (m : Dict.t Json.value) : string :=
  let v := UpdateMufiz.release_version rel in
  Json.dumps (Some 4%nat) false
    (Json.Obj (UpdateMufiz.updated_manifest m v
                 (arch_section w (UpdateMufiz.find_asset_urls rel v)))).

(** The JSON a dry run prints. *)
Definition preview_text (w : World) (rel : release) : string :=
  let v := UpdateMufiz.release_version rel in
  Json.dumps (Some 2%nat) true
    (Json.Obj [("version", Json.Str v);
               ("architecture",
                Json.Obj (arch_section w (UpdateMufiz.find_asset_urls rel v)))]).

(** The events of [update_manifest] up to the comparison of versions. *)
Definition preamble (w : World) (rel : release) (m : Dict.t Json.value)
  : list event :=
  [ EPrint "Fetching latest release information...";
    EGet UpdateMufiz.latest_url;
    EPrint ("Latest version: " ++ UpdateMufiz.release_version rel);
    EPrint "Loading current manifest...";
    ERead;
    EPrint ("Current version: "
            ++ UpdateMufiz.py_str w (UpdateMufiz.current_version_of m)) ].

(** The state in which [main] calls [update_manifest]. *)
Definition started (argv : list string) (s : Sys) : Sys :=
  if dry_run_flag argv then
    extend s [EPrint "Running in DRY RUN mode - no files will be modified"]
  else s.

(** The digest the reporter stores for a response. *)
Definition reported_digest (r : response) : string :=
  Hashlib.hexdigest (Hashlib.sha256 (content r)).

(** The report: three labelled entries of a URL and a digest. *)
Definition report (u0 h0 u1 h1 u2 h2 : string) : Json.value :=
  Json.Obj
    [ ("64bit", Json.Obj [("url", Json.Str u0); ("hash", Json.Str h0)]);
      ("32bit", Json.Obj [("url", Json.Str u1); ("hash", Json.Str h1)]);
      ("arm64", Json.Obj [("url", Json.Str u2); ("hash", Json.Str h2)]) ].

(* ================================================================== *)
(** * Sample releases and worlds *)

(** A body of 150 bytes delivered as 70 + 0 + 80 bytes. *)
Definition sample_chunks : list Hashlib.bytes :=
  [ repeat x61 70; []; repeat x62 80 ].

(** No manifest file; every URL answers with [sample_chunks]. *)
Definition sample_world : World := {|
  api := ApiError "offline";
  web := fun _ => Answered (Response 200 "OK" sample_chunks None);
  disk := None;
  write_fault := None;
  json_loads := fun _ => Malformed "no decoder";
  py_repr := fun _ => ""
|}.

(** Two [.zip] assets for the 64-bit build. *)
Definition two_builds : release :=
  Release "v0.10.0"
    (Some [ Asset "mufiz_0.10.0_x86_64-windows.zip"
                  "https://example.org/first.zip";
            Asset "mufiz_0.10.0_x86_64-windows-debug.zip"
                  "https://example.org/second.zip" ]).

(** The manifest file holds [{}]. *)
Definition empty_manifest_world : World := {|
  api := ApiRelease (Release "v1.0" (Some []));
  web := fun _ => Unreachable "no route";
  disk := Some "{}";
  write_fault := None;
  json_loads := fun text =>
    if String.eqb text "{}" then Parsed (Json.Obj [])
    else Malformed "Expecting value: line 1 column 1 (char 0)";
  py_repr := fun _ => ""
|}.

(** A release with the three builds. *)
Definition demo_release : release :=
  Release "v0.10.0"
    (Some [ Asset "mufiz_0.10.0_x86_64-windows.zip"
                  "https://example.org/x64.zip";
            Asset "mufiz_0.10.0_x86-windows-gnu.zip"
                  "https://example.org/x86.zip";
            Asset "mufiz_0.10.0_aarch64-windows.zip"
                  "https://example.org/arm64.zip" ]).

(** A manifest: [members], then a homepage and the architecture section of
    an older release. *)
Definition demo_manifest (members : Dict.t Json.value) : Dict.t Json.value :=
  (members
   ++ [ ("homepage", Json.Str "https://github.com/Mufi-Lang/MufiZ");
        ("architecture",
         Json.Obj
           [("ia64",
             Json.Obj [("url", Json.Str "https://example.org/old.zip");
                       ("hash", Json.Str "00")])]) ])%list.

(** The manifest on disk decodes to [demo_manifest members]; every URL
    answers with its own text as body, except [down], which answers 404. *)
Definition demo_world (members : Dict.t Json.value) (down : string)
  : World := {|
  api := ApiRelease demo_release;
  web := fun url =>
    if String.eqb url down then Answered (Response 404 "Not Found" [] None)
    else Answered (Response 200 "OK" [Hashlib.bytes_of_string url] None);
  disk := Some "(manifest)";
  write_fault := None;
  json_loads := fun _ => Parsed (Json.Obj (demo_manifest members));
  py_repr := fun _ => ""
|}.

Definition old_version : Dict.t Json.value :=
  [("version", Json.Str "0.9.0")].

Definition same_version : Dict.t Json.value :=
  [("version", Json.Str "0.10.0")].

(* ================================================================== *)
(** * Notions for the further properties *)

(** The canonical labels, in table order. *)
Definition labels : list string := map snd UpdateMufiz.ARCH_MAPPINGS.

(** No key of the table occurs in the name. *)
Definition no_key_in (a : asset) : bool :=
  forallb (fun kv => negb (Py.str_in (fst kv) (name a)))
          UpdateMufiz.ARCH_MAPPINGS.

(** The resolved URLs of a list of assets. *)
Definition urls_of (l : list asset) : Dict.t string :=
  UpdateMufiz.find_asset_urls (Release "" (Some l)) "".

(** The URLs the download loop requests: in order, up to and including
    the first whose download fails. *)
Fixpoint attempted (w : World) (urls : list string) : list string :=
  match urls with
  | [] => []
  | u :: rest => u :: (if download_fails w u then [] else attempted w rest)
  end.

(** How often the manifest file was opened for reading along a trace. *)
Fixpoint reads (tr : list event) : nat :=
  match tr with
  | [] => O
  | ERead :: tr' => S (reads tr')
  | _ :: tr' => reads tr'
  end.

(** A link of the reporter is answered and its transfer completes. *)
Definition link_ok (w : World) (l : string) : bool :=
  match web w l with
  | Unreachable _ => false
  | Answered r => match broken r with None => true | Some _ => false end
  end.

(** [l] starts with [p]. *)
Fixpoint is_prefix (p l : list string) : bool :=
  match p, l with
  | [], _ => true
  | x :: p', y :: l' => String.eqb x y && is_prefix p' l'
  | _ :: _, [] => false
  end.

Definition is_obj (v : Json.value) : bool :=
  match v with Json.Obj _ => true | _ => false end.

(** What the update step prints when the number of resolved assets is
    not three. *)
Definition warning_events (urls : Dict.t string) : list event :=
  if negb (List.length urls =? 3)%nat then
    [ EPrint ("Warning: Expected 3 assets, found "
              ++ Py.str_int (Z.of_nat (List.length urls)));
      EPrint ("Found assets: " ++ Py.repr_str_list (Dict.keys urls)) ]
  else [].

(** The events that end the update step, after the downloads. *)
Definition closing_events (dry : bool) (w : World) (rel : release)
           (m : Dict.t Json.value) : list event :=
  let v := UpdateMufiz.release_version rel in
  if all_downloads_ok w (UpdateMufiz.find_asset_urls rel v) then
    if dry then
      [ EPrint (String Json.newline "--- DRY RUN MODE ---");
        EPrint "Would update manifest with:";
        EPrint (preview_text w rel);
        EPrint ("‚úì Dry run completed - would update MufiZ.json to version "
                ++ v) ]
    else
      match write_fault w with
      | None =>
          [ EPrint "Saving updated manifest...";
            EWrite (committed_text w rel m);
            EPrint ("‚úì Successfully updated MufiZ.json to version " ++ v) ]
      | Some f =>
          [ EPrint "Saving updated manifest...";
            EWrite (committed_text w rel m);
            EPrint ("Error saving manifest: " ++ write_error f);
            EPrint "‚úó Failed to save manifest" ]
      end
  else [].

(** A world around [demo_release]: what the releases endpoint answers,
    what the manifest decodes to, whether writing fails, which URL is
    down. *)
Definition staged_world (a : api_result) (p : parsed)
           (f : option write_failure) (down : string) : World := {|
  api := a;
  web := fun url =>
    if String.eqb url down then Answered (Response 404 "Not Found" [] None)
    else Answered (Response 200 "OK" [Hashlib.bytes_of_string url] None);
  disk := Some "(manifest)";
  write_fault := f;
  json_loads := fun _ => p;
  py_repr := fun _ => "(repr)"
|}.

(** A release with one recognised build, one checksum file and one build
    for another system. *)
Definition partial_release : release :=
  Release "v0.11.0"
    (Some [ Asset "mufiz_0.11.0_x86_64-windows.zip.sha256"
                  "https://example.org/x64.sha256";
            Asset "mufiz_0.11.0_aarch64-windows.zip"
                  "https://example.org/arm64.zip";
            Asset "mufiz_0.11.0_x86_64-linux.zip"
                  "https://example.org/linux.zip" ]).

(** [demo_world old_version ""] with a decoder that reads the first
    manifest from the text on disk at the start and the updated manifest
    from any other text. *)
Definition rereading_world : World := {|
  api := ApiRelease demo_release;
  web := web (demo_world old_version "");
  disk := Some "(manifest)";
  write_fault := None;
  json_loads := fun text =>
    if String.eqb text "(manifest)" then
      Parsed (Json.Obj (demo_manifest old_version))
    else
      Parsed (Json.Obj
                (UpdateMufiz.updated_manifest (demo_manifest old_version)
                   "0.10.0"
                   (arch_section (demo_world old_version "")
                      (UpdateMufiz.find_asset_urls demo_release "0.10.0"))));
  py_repr := fun _ => ""
|}.

Arguments Hashlib.hexdigest : simpl never.
Arguments Hashlib.update : simpl never.
Arguments Hashlib.sha256 : simpl never.
Arguments Json.dumps : simpl never.
Arguments Py.str_int : simpl never.
Arguments Py.repr_str_list : simpl never.
Arguments String.append : simpl never.

(* ================================================================== *)
(** * hashlib: chunked updates against one update *)

Section HashlibFacts.
Import Hashlib.
Local Open Scope list_scope.
Local Open Scope nat_scope.

Lemma absorb_fuel_irrelevant (n m : nat) :
  forall h l, List.length l <= n -> List.length l <= m ->
              absorb_fuel n h l = absorb_fuel m h l.
Proof.
  revert m. induction n as [|n IH]; intros m h l Hn Hm.
  - destruct l; [|simpl in Hn; lia].
    destruct m; reflexivity.
  - destruct m as [|m].
    + destruct l; [reflexivity|simpl in Hm; lia].
    + cbn [absorb_fuel]. destruct (List.length l <? 64) eqn:E; [reflexivity|].
      apply Nat.ltb_ge in E.
      apply IH; rewrite length_skipn; lia.
Qed.

Lemma absorb_short h l : List.length l < 64 -> absorb h l = (h, l).
Proof.
  intros H. unfold absorb. destruct (List.length l) eqn:E; [reflexivity|].
  cbn [absorb_fuel]. rewrite E. apply Nat.ltb_lt in H. rewrite H. reflexivity.
Qed.

Lemma absorb_block h l :
  64 <= List.length l ->
  absorb h l = absorb (compress h (firstn 64 l)) (skipn 64 l).
Proof.
  intros H. unfold absorb. destruct (List.length l) as [|n] eqn:E; [lia|].
  cbn [absorb_fuel]. rewrite E.
  assert (F : (S n <? 64) = false) by (apply Nat.ltb_ge; lia).
  rewrite F. apply absorb_fuel_irrelevant; rewrite length_skipn; lia.
Qed.

(** Feeding [l ++ m] is feeding [l], then what [l] left over with [m]. *)
Lemma absorb_app (l m : bytes) :
  forall h, absorb h (l ++ m)
            = absorb (fst (absorb h l)) (snd (absorb h l) ++ m).
Proof.
  remember (List.length l) as n eqn:En. revert l En.
  induction n as [n IH] using lt_wf_ind. intros l En h.
  destruct (Nat.lt_ge_cases (List.length l) 64) as [Hs|Hb].
  - rewrite (absorb_short h l Hs). reflexivity.
  - rewrite (absorb_block h l Hb).
    rewrite (absorb_block h (l ++ m)) by (rewrite length_app; lia).
    rewrite firstn_app, skipn_app.
    replace (64 - List.length l) with 0 by lia.
    rewrite firstn_O, skipn_O, app_nil_r.
    apply (IH (List.length (skipn 64 l))); [|reflexivity].
    rewrite length_skipn. lia.
Qed.

Lemma update_app o a b : update (update o a) b = update o (a ++ b).
Proof.
  unfold update.
  rewrite app_assoc, (absorb_app (pending o ++ a) b).
  destruct (absorb (chain o) (pending o ++ a)) as [h r]. simpl.
  destruct (absorb h (r ++ b)) as [h' r'].
  rewrite length_app, Nat2Z.inj_add, Z.add_assoc. reflexivity.
Qed.

Lemma fold_update_from o a (cs : list bytes) :
  fold_left update cs (update o a) = update o (a ++ List.concat cs).
Proof.
  revert a. induction cs as [|c cs IH]; intros a;
    cbn [fold_left List.concat].
  - rewrite app_nil_r. reflexivity.
  - rewrite update_app, IH, app_assoc. reflexivity.
Qed.

(** One [update] per chunk builds the object of one [sha256] call on the
    whole body. *)
Lemma fold_update_concat (cs : list bytes) :
  fold_left update cs new = sha256 (List.concat cs).
Proof.
  destruct cs as [|c cs]; [reflexivity|].
  cbn [fold_left List.concat]. apply fold_update_from.
Qed.

(** The digest of the object fed [msg] is the chaining value after the
    blocks of the padded message, as FIPS 180-4 defines SHA-256. *)
Lemma digest_of_padded_message (msg : bytes) :
  digest (sha256 msg)
  = fst (absorb H0 (msg ++ padding (Z.of_nat (List.length msg)))).
Proof.
  unfold sha256, update, digest, new. cbn [chain pending seen app].
  rewrite (absorb_app msg (padding (Z.of_nat (List.length msg))) H0).
  destruct (absorb H0 msg) as [h rest]. reflexivity.
Qed.

Lemma hex_digit_is_hex n : is_hex (hex_digit n) = true.
Proof.
  unfold hex_digit. generalize (Z.to_nat n) as k. intros k.
  do 16 (destruct k as [|k]; [reflexivity|]).
  destruct k; reflexivity.
Qed.

Lemma length_string_of_list l :
  String.length (string_of_list_ascii l) = List.length l.
Proof. induction l; simpl; congruence. Qed.

Lemma hexdigest_length o : String.length (hexdigest o) = 64.
Proof.
  unfold hexdigest. rewrite length_string_of_list.
  destruct (digest o). reflexivity.
Qed.

Lemma hexdigest_hex o :
  forallb is_hex (list_ascii_of_string (hexdigest o)) = true.
Proof.
  unfold hexdigest. rewrite list_ascii_of_string_of_list_ascii.
  destruct (digest o). unfold hex_word.
  rewrite !forallb_app. cbn [forallb map].
  rewrite !hex_digit_is_hex. reflexivity.
Qed.

Lemma hexdigest_nonempty o : String.eqb (hexdigest o) "" = false.
Proof.
  pose proof (hexdigest_length o) as H.
  destruct (hexdigest o); [discriminate H|reflexivity].
Qed.

End HashlibFacts.

(* ================================================================== *)
(** * The monad and the primitive actions *)

Section MonadFacts.
Local Open Scope list_scope.

Lemma extend_nil s : extend s [] = s.
Proof. destruct s. unfold extend. simpl. rewrite app_nil_r. reflexivity. Qed.

Lemma extend_extend s a b : extend (extend s a) b = extend s (a ++ b).
Proof. unfold extend. simpl. rewrite app_assoc. reflexivity. Qed.

Lemma writes_app a b : writes (a ++ b) = writes a ++ writes b.
Proof.
  induction a as [|e a IH]; [reflexivity|].
  destruct e; simpl; rewrite IH; reflexivity.
Qed.

Lemma requests_app a b : requests (a ++ b) = requests a ++ requests b.
Proof.
  induction a as [|e a IH]; [reflexivity|].
  destruct e; simpl; rewrite IH; reflexivity.
Qed.

Lemma printed_app a b : printed (a ++ b) = printed a ++ printed b.
Proof.
  induction a as [|e a IH]; [reflexivity|].
  destruct e; simpl; rewrite IH; reflexivity.
Qed.

Lemma world_extend s a : world (extend s a) = world s.
Proof. reflexivity. Qed.

Lemma trace_extend s a : trace (extend s a) = trace s ++ a.
Proof. reflexivity. Qed.

Lemma emit_eq e s : emit e s = (Ok tt, extend s [e]).
Proof. reflexivity. Qed.

Lemma print_eq t s : print t s = (Ok tt, extend s [EPrint t]).
Proof. reflexivity. Qed.

Lemma bind_eq {A B} (m : M A) (k : A -> M B) s :
  bind m k s = match m s with
               | (Ok a, s') => k a s'
               | (Raise e, s') => (Raise e, s')
               end.
Proof. reflexivity. Qed.

End MonadFacts.

Ltac mstep :=
  repeat (rewrite ?bind_eq, ?print_eq, ?emit_eq, ?extend_extend,
            ?world_extend;
          unfold get_world, ret, raise, sys_exit;
          cbn [fst snd app]).

(* ================================================================== *)
(** * download_and_hash *)

Section DownloadFacts.
Local Open Scope list_scope.

(** A download never raises and never touches the world: it returns the
    digest of the body, or [None] after a request error. *)
Lemma download_and_hash_spec url s :
  exists extra,
    UpdateMufiz.download_and_hash url s
    = (Ok (body_digest (world s) url), extend s extra)
    /\ writes extra = [].
Proof.
  unfold UpdateMufiz.download_and_hash, try_except, get_stream,
    raise_for_status, UpdateMufiz.hash_stream, body_digest, good_status.
  mstep.
  destruct (web (world s) url) as [err|r]; mstep.
  - eexists; split; reflexivity.
  - destruct (400 <=? status_code r) eqn:E4;
      destruct (status_code r <? 500) eqn:E5;
      destruct (500 <=? status_code r) eqn:E55;
      destruct (status_code r <? 600) eqn:E6;
      destruct (status_code r <? 400) eqn:E3;
      destruct (600 <=? status_code r) eqn:E7;
      try lia;
      cbn [andb orb is_RequestException]; mstep;
      try (eexists; split; reflexivity);
      destruct (broken r); cbn [is_RequestException]; mstep;
      try rewrite fold_update_concat;
      eexists; split; reflexivity.
Qed.

End DownloadFacts.

(** C8.  Whatever chunks a body arrives in, [download_and_hash], which
    feeds the hash object one chunk at a time, returns the hex digest that
    the Hash Reporter computes with a single [hashlib.sha256] call on the
    concatenation of those chunks. *)
Theorem download_and_hash_matches_one_shot :
  forall (s : Sys) (url : string) (r : response),
    web (world s) url = Answered r ->
    good_status r = true ->
    broken r = None ->
    fst (UpdateMufiz.download_and_hash url s)
    = Ok (Some (Hashlib.hexdigest (Hashlib.sha256 (List.concat (chunks r)))))
    /\ Hashlib.hexdigest (fold_left Hashlib.update (chunks r) Hashlib.new)
       = Hashlib.hexdigest (Hashlib.sha256 (List.concat (chunks r))).
Proof.
  intros s url r Hweb Hst Hbr. split.
  - destruct (download_and_hash_spec url s) as [extra [E _]].
    rewrite E. unfold body_digest. rewrite Hweb, Hst, Hbr. reflexivity.
  - rewrite fold_update_concat. reflexivity.
Qed.

Lemma download_and_hash_matches_one_shot_witness :
  good_status (Response 200 "OK" sample_chunks None) = true
  /\ fst (UpdateMufiz.download_and_hash "u" (boot sample_world))
     = Ok (Some (Hashlib.hexdigest
                   (Hashlib.sha256 (List.concat sample_chunks)))).
Proof.
  split; [reflexivity|].
  exact (proj1 (download_and_hash_matches_one_shot
                  (boot sample_world) "u"
                  (Response 200 "OK" sample_chunks None)
                  eq_refl eq_refl eq_refl)).
Defined.

Example round_constants :
  (List.length Hashlib.K = 64)%nat
  /\ firstn 4 Hashlib.K = [0x428a2f98; 0x71374491; 0xb5c0fbcf; 0xe9b5dba5]
  /\ nth 63 Hashlib.K 0 = 0xc67178f2
  /\ Hashlib.H0
     = Hashlib.HState
         (Hashlib.frac_root 2 2) (Hashlib.frac_root 2 3)
         (Hashlib.frac_root 2 5) (Hashlib.frac_root 2 7)
         (Hashlib.frac_root 2 11) (Hashlib.frac_root 2 13)
         (Hashlib.frac_root 2 17) (Hashlib.frac_root 2 19).
Proof. vm_compute. repeat split. Qed.

Example sha256_abc :
  Hashlib.hexdigest (Hashlib.sha256 (Hashlib.bytes_of_string "abc"))
  = "ba7816bf8f01cfea414140de5dae2223b00361a396177a9cb410ff61f20015ad".
Proof. vm_compute. reflexivity. Qed.

Example sha256_empty :
  Hashlib.hexdigest (Hashlib.sha256 [])
  = "e3b0c44298fc1c149afbf4c8996fb92427ae41e4649b934ca495991b7852b855".
Proof. vm_compute. reflexivity. Qed.

Example sha256_sample_chunks :
  Hashlib.hexdigest (fold_left Hashlib.update sample_chunks Hashlib.new)
  = "7893948f883788d6f43672f1542b9e25805f375cfee6d4c3fc33fa43ebb05352".
Proof. vm_compute. reflexivity. Qed.

(* ================================================================== *)
(** * Dictionaries *)

Section DictFacts.
Context {V : Type}.
Local Open Scope list_scope.

Lemma get_set (d : Dict.t V) k v k' :
  Dict.get (Dict.set d k v) k'
  = if String.eqb k' k then Some v else Dict.get d k'.
Proof.
  induction d as [|[k0 v0] d IH]; simpl.
  - reflexivity.
  - destruct (String.eqb k k0) eqn:E; simpl.
    + apply String.eqb_eq in E. subst k0.
      destruct (String.eqb k' k); reflexivity.
    + rewrite IH. destruct (String.eqb k' k0) eqn:E0; [|reflexivity].
      apply String.eqb_eq in E0. subst k0.
      rewrite String.eqb_sym, E. reflexivity.
Qed.

Lemma get_set_same (d : Dict.t V) k v : Dict.get (Dict.set d k v) k = Some v.
Proof. rewrite get_set, String.eqb_refl. reflexivity. Qed.

Lemma get_set_other (d : Dict.t V) k v k' :
  k' <> k -> Dict.get (Dict.set d k v) k' = Dict.get d k'.
Proof.
  intros H. rewrite get_set.
  destruct (String.eqb k' k) eqn:E; [|reflexivity].
  apply String.eqb_eq in E. contradiction.
Qed.

Lemma get_none_not_in (d : Dict.t V) k :
  Dict.get d k = None -> ~ In k (Dict.keys d).
Proof.
  induction d as [|[k0 v0] d IH]; simpl; [tauto|].
  destruct (String.eqb k k0) eqn:E; [discriminate|].
  intros H [H0|H0]; [|exact (IH H H0)].
  subst k0. rewrite String.eqb_refl in E. discriminate.
Qed.

Lemma not_in_get_none (d : Dict.t V) k :
  ~ In k (Dict.keys d) -> Dict.get d k = None.
Proof.
  induction d as [|[k0 v0] d IH]; simpl; [reflexivity|].
  intros H. destruct (String.eqb k k0) eqn:E.
  - apply String.eqb_eq in E. subst k0. tauto.
  - apply IH. tauto.
Qed.

(** A key already present keeps its place; the keys do not change. *)
Lemma keys_set_present (d : Dict.t V) k v :
  In k (Dict.keys d) -> Dict.keys (Dict.set d k v) = Dict.keys d.
Proof.
  induction d as [|[k0 v0] d IH]; simpl; [tauto|].
  intros H. destruct (String.eqb k k0) eqn:E; simpl; [reflexivity|].
  f_equal. apply IH. destruct H as [H|H]; [|exact H].
  subst k0. rewrite String.eqb_refl in E. discriminate.
Qed.

(** A new key goes to the end. *)
Lemma set_absent (d : Dict.t V) k v :
  ~ In k (Dict.keys d) -> Dict.set d k v = d ++ [(k, v)].
Proof.
  induction d as [|[k0 v0] d IH]; simpl; [reflexivity|].
  intros H. destruct (String.eqb k k0) eqn:E.
  - apply String.eqb_eq in E. subst k0. tauto.
  - f_equal. apply IH. tauto.
Qed.

Lemma keys_set_nodup (d : Dict.t V) k v :
  NoDup (Dict.keys d) -> NoDup (Dict.keys (Dict.set d k v)).
Proof.
  intros H. destruct (in_dec string_dec k (Dict.keys d)) as [Hin|Hout].
  - rewrite keys_set_present; assumption.
  - rewrite set_absent by assumption. unfold Dict.keys.
    rewrite map_app. simpl.
    apply NoDup_app; [exact H|repeat constructor; simpl; tauto|].
    intros x Hx [Hk|[]]. subst x. exact (Hout Hx).
Qed.

End DictFacts.

(* ================================================================== *)
(** * find_asset_urls *)

Section AssetFacts.
Import UpdateMufiz.

Lemma match_arch_table table a urls :
  match_arch table a urls
  = match (if Py.endswith (name a) ".zip" then
             option_map snd
               (find (fun kv => Py.str_in (fst kv) (name a)) table)
           else None) with
    | Some l => Dict.set urls l (browser_download_url a)
    | None => urls
    end.
Proof.
  induction table as [|[arch_key scoop_arch] table IH];
    cbn [match_arch find fst].
  - destruct (Py.endswith (name a) ".zip"); reflexivity.
  - rewrite IH.
    destruct (Py.str_in arch_key (name a));
      destruct (Py.endswith (name a) ".zip"); reflexivity.
Qed.

Lemma match_arch_resolve a urls :
  match_arch ARCH_MAPPINGS a urls
  = match resolve a with
    | Some l => Dict.set urls l (browser_download_url a)
    | None => urls
    end.
Proof. apply match_arch_table. Qed.

Lemma get_match_arch a urls label :
  Dict.get (match_arch ARCH_MAPPINGS a urls) label
  = if resolves_to label a then Some (browser_download_url a)
    else Dict.get urls label.
Proof.
  rewrite match_arch_resolve. unfold resolves_to.
  destruct (resolve a) as [l|]; [|reflexivity].
  apply get_set.
Qed.

Lemma get_fold_match_arch (l : list asset) :
  forall urls label,
    Dict.get (fold_left (fun urls a => match_arch ARCH_MAPPINGS a urls)
                        l urls) label
    = match last_url l label with
      | Some u => Some u
      | None => Dict.get urls label
      end.
Proof.
  induction l as [|a l IH]; intros urls label; cbn [fold_left last_url].
  - reflexivity.
  - rewrite IH, get_match_arch.
    destruct (last_url l label); [reflexivity|].
    destruct (resolves_to label a); reflexivity.
Qed.

Lemma nodup_fold_match_arch (l : list asset) :
  forall urls,
    NoDup (Dict.keys urls) ->
    NoDup (Dict.keys (fold_left
                        (fun urls a => match_arch ARCH_MAPPINGS a urls)
                        l urls)).
Proof.
  induction l as [|a l IH]; intros urls H; cbn [fold_left]; [exact H|].
  apply IH. rewrite match_arch_resolve.
  destruct (resolve a); [apply keys_set_nodup|]; exact H.
Qed.

Lemma find_asset_urls_nodup r v : NoDup (Dict.keys (find_asset_urls r v)).
Proof. apply nodup_fold_match_arch. constructor. Qed.

End AssetFacts.

(** C1 as stated fails: with two assets for one label the URL of the first
    is not the one kept. *)
Lemma find_asset_urls_first_not_kept :
  first_url (assets_of two_builds) "64bit"
  = Some "https://example.org/first.zip"
  /\ Dict.get (UpdateMufiz.find_asset_urls two_builds "0.10.0") "64bit"
     = Some "https://example.org/second.zip"
  /\ Dict.get (UpdateMufiz.find_asset_urls two_builds "0.10.0") "64bit"
     <> first_url (assets_of two_builds) "64bit".
Proof.
  split; [reflexivity|]. split; [reflexivity|].
  vm_compute. discriminate.
Qed.

(** C1, amended.  [find_asset_urls] resolves each asset to at most one
    label ([resolve]: the asset is a [.zip] and the first table entry whose
    key occurs in its name gives the label), and the URL stored under a
    label is that of the last asset resolving to it: a later match
    replaces the stored URL. *)
Theorem find_asset_urls_last_match :
  forall (r : release) (version label : string),
    Dict.get (UpdateMufiz.find_asset_urls r version) label
    = last_url (assets_of r) label.
Proof.
  intros r version label. unfold UpdateMufiz.find_asset_urls.
  fold (assets_of r). rewrite get_fold_match_arch.
  destruct (last_url (assets_of r) label); reflexivity.
Qed.

(** C2 as stated fails: a tag with two leading [v] loses both. *)
Lemma release_version_strips_more_than_one :
  UpdateMufiz.release_version (Release "vv1.0" None) = "1.0"
  /\ strip_one_v "vv1.0" = "v1.0"
  /\ UpdateMufiz.release_version (Release "vv1.0" None)
     <> strip_one_v (tag_name (Release "vv1.0" None)).
Proof.
  split; [reflexivity|]. split; [reflexivity|].
  vm_compute. discriminate.
Qed.

(** C2, amended.  The derived version is the tag without its leading run
    of [v] characters: the tag is some number [n] of [v] followed by the
    version, the version does not start with [v], and [n] is zero exactly
    when the tag does not start with [v]. *)
Theorem release_version_strips_all_v :
  forall r : release,
    exists n : nat,
      tag_name r = vs n ++ UpdateMufiz.release_version r
      /\ String.prefix "v" (UpdateMufiz.release_version r) = false
      /\ (n =? 0)%nat = negb (String.prefix "v" (tag_name r)).
Proof.
  intros [tag l]. unfold UpdateMufiz.release_version. cbn [tag_name].
  induction tag as [|c tag IH].
  - exists 0%nat. repeat split.
  - cbn [Py.lstrip Py.char_in].
    destruct (Ascii.eqb c "v") eqn:E; cbn [orb].
    + apply Ascii.eqb_eq in E. subst c.
      destruct IH as [n [H1 [H2 _]]]. exists (S n). split; [|split].
      * cbn [vs].
        change (String "v" tag = String "v" (vs n ++ Py.lstrip "v" tag)).
        f_equal. exact H1.
      * exact H2.
      * clear. destruct tag; reflexivity.
    + exists 0%nat. split; [reflexivity|].
      destruct c as [[] [] [] [] [] [] [] []];
        try discriminate E; split; reflexivity.
Qed.

(* ================================================================== *)
(** * Actions that leave the manifest file alone *)

Section Frames.
Local Open Scope list_scope.

Lemma frames_ret {A} (a : A) : frames (ret a).
Proof. intros s. exists []. rewrite extend_nil. split; reflexivity. Qed.

Lemma frames_raise {A} e : frames (@raise A e).
Proof. intros s. exists []. rewrite extend_nil. split; reflexivity. Qed.

Lemma frames_get_world : frames get_world.
Proof. intros s. exists []. rewrite extend_nil. split; reflexivity. Qed.

Lemma frames_print t : frames (print t).
Proof. intros s. exists [EPrint t]. split; reflexivity. Qed.

Lemma frames_get url : frames (emit (EGet url)).
Proof. intros s. exists [EGet url]. split; reflexivity. Qed.

Lemma frames_read : frames (emit ERead).
Proof. intros s. exists [ERead]. split; reflexivity. Qed.

Lemma frames_bind {A B} (m : M A) (k : A -> M B) :
  frames m -> (forall a, frames (k a)) -> frames (bind m k).
Proof.
  intros Hm Hk s. rewrite bind_eq.
  destruct (Hm s) as [x [E W]]. destruct (m s) as [[a|e] s']; simpl in E.
  - destruct (Hk a s') as [y [E' W']]. subst s'.
    exists (x ++ y). rewrite E', extend_extend, writes_app, W, W'.
    split; reflexivity.
  - exists x. simpl. split; assumption.
Qed.

Lemma frames_try_except {A} (m : M A) handles h :
  frames m -> (forall e, frames (h e)) -> frames (try_except m handles h).
Proof.
  intros Hm Hh s. unfold try_except.
  destruct (Hm s) as [x [E W]]. destruct (m s) as [[a|e] s']; simpl in E.
  - exists x. simpl. split; assumption.
  - destruct (handles e).
    + destruct (Hh e s') as [y [E' W']]. subst s'.
      exists (x ++ y). rewrite E', extend_extend, writes_app, W, W'.
      split; reflexivity.
    + exists x. simpl. split; assumption.
Qed.

Lemma frames_if {A} (b : bool) (m1 m2 : M A) :
  frames m1 -> frames m2 -> frames (if b then m1 else m2).
Proof. destruct b; auto. Qed.

End Frames.

Create HintDb frames.
#[export] Hint Resolve frames_ret frames_raise frames_get_world frames_print
  frames_get frames_read : frames.

(** Membership in a list built from conses and appends. *)
Ltac in_search :=
  solve [ left; reflexivity
        | apply in_cons; in_search
        | apply in_or_app; left; in_search
        | apply in_or_app; right; in_search ].

(** Break a composite action into its parts. *)
Ltac frame_step :=
  first
    [ apply frames_bind; [|intros ?]
    | apply frames_try_except; [|intros ?]
    | apply frames_if
    | solve [auto with frames]
    | unfold sys_exit; apply frames_raise ].

Section Updater.
Import UpdateMufiz.
Local Open Scope list_scope.

Lemma frames_get_latest_release : frames get_latest_release.
Proof.
  unfold get_latest_release. repeat frame_step.
  destruct (api _); repeat frame_step.
Qed.

Lemma frames_load_manifest : frames load_manifest.
Proof.
  unfold load_manifest, read_manifest. repeat frame_step.
  destruct (disk _); repeat frame_step.
  destruct (json_loads _ _); repeat frame_step.
Qed.

Lemma frames_download_and_hash url : frames (download_and_hash url).
Proof.
  intros s. destruct (download_and_hash_spec url s) as [x [E W]].
  exists x. rewrite E. split; [reflexivity|exact W].
Qed.

Lemma body_digest_nonempty w url h :
  body_digest w url = Some h -> String.eqb h "" = false.
Proof.
  unfold body_digest. destruct (web w url) as [|r]; [discriminate|].
  destruct (good_status r); [|discriminate].
  destruct (broken r); [discriminate|].
  intros H. injection H as <-. apply hexdigest_nonempty.
Qed.

(** The loop stops at the first download that fails and returns [None];
    when none fails it has stored one entry per item. *)
Lemma hash_assets_spec (items : list (string * string)) :
  forall updated_archs s,
  exists extra,
    hash_assets items updated_archs s
    = (Ok (if existsb (fun kv => download_fails (world s) (snd kv)) items
           then None
           else Some (fold_left
                        (fun acc kv =>
                           Dict.set acc (fst kv) (snd (entry_of (world s) kv)))
                        items updated_archs)),
       extend s extra)
    /\ writes extra = [].
Proof.
  induction items as [|[arch url] items IH]; intros acc s.
  - exists []. rewrite extend_nil. split; reflexivity.
  - cbn [hash_assets existsb fold_left]. mstep.
    destruct (download_and_hash_spec url (extend s
                [EPrint ("Processing " ++ arch ++ " architecture...")]))
      as [x [E W]].
    rewrite world_extend in E. rewrite E. mstep.
    unfold download_fails at 1. unfold entry_of at 2. cbn [fst snd].
    destruct (body_digest (world s) url) as [h|] eqn:D.
    + rewrite (body_digest_nonempty _ _ _ D). cbn [negb orb]. mstep.
      match goal with
      | |- context [hash_assets items ?a (extend s ?l)] =>
          destruct (IH a (extend s l)) as [y [E' W']];
          rewrite world_extend, extend_extend in E'; rewrite E';
          exists (l ++ y); split; [reflexivity|];
          change l with ([EPrint ("Processing " ++ arch ++ " architecture...")]
                         ++ x ++ [EPrint ("  ‚úì " ++ arch ++ ": " ++ h)]);
          rewrite !writes_app, W, W'; reflexivity
      end.
    + cbn [orb]. mstep. eexists. split; [reflexivity|].
      change (writes ([EPrint ("Processing " ++ arch ++ " architecture...")]
                      ++ x ++ [EPrint ("  ‚úó Failed to process " ++ arch)])
              = []).
      rewrite !writes_app, W. reflexivity.
Qed.

Lemma fold_set_entries w (items : list (string * string)) :
  forall acc : Dict.t Json.value,
    NoDup (Dict.keys acc ++ map fst items) ->
    fold_left (fun acc kv => Dict.set acc (fst kv) (snd (entry_of w kv)))
              items acc
    = acc ++ map (entry_of w) items.
Proof.
  induction items as [|[k u] items IH]; intros acc H; cbn [fold_left map].
  - rewrite app_nil_r. reflexivity.
  - cbn [fst map] in H.
    rewrite set_absent.
    + rewrite IH.
      * rewrite <- app_assoc. reflexivity.
      * unfold Dict.keys. rewrite map_app, <- app_assoc. exact H.
    + apply NoDup_remove_2 in H. intros Hin. apply H.
      apply in_or_app. left. exact Hin.
Qed.

(** With every download succeeding the loop builds the whole section. *)
Lemma hash_assets_all rel v s :
  exists extra,
    hash_assets (find_asset_urls rel v) [] s
    = (Ok (if all_downloads_ok (world s) (find_asset_urls rel v)
           then Some (arch_section (world s) (find_asset_urls rel v))
           else None),
       extend s extra)
    /\ writes extra = [].
Proof.
  destruct (hash_assets_spec (find_asset_urls rel v) [] s) as [x [E W]].
  exists x. split; [|exact W]. rewrite E. unfold all_downloads_ok.
  destruct (existsb _ _); [reflexivity|]. cbn [negb].
  rewrite fold_set_entries; [reflexivity|].
  apply find_asset_urls_nodup.
Qed.

End Updater.

(* ================================================================== *)
(** * Runs of the updater *)

Section UpdaterRuns.
Import UpdateMufiz.
Local Open Scope list_scope.

Lemma frames_warn (urls : Dict.t string) :
  frames (A := unit)
    (if negb (List.length urls =? 3)%nat then
       print ("Warning: Expected 3 assets, found "
              ++ Py.str_int (Z.of_nat (List.length urls))) ;;
       print ("Found assets: " ++ Py.repr_str_list (Dict.keys urls))
     else ret tt).
Proof. repeat frame_step. Qed.

Lemma frames_hash_assets items acc : frames (hash_assets items acc).
Proof.
  intros s. destruct (hash_assets_spec items acc s) as [x [E W]].
  exists x. rewrite E. split; [reflexivity|exact W].
Qed.

(** A dry run of the update step writes nothing. *)
Lemma frames_apply_update_dry rel v m cur :
  frames (apply_update true rel v m cur).
Proof.
  unfold apply_update. frame_step; [frame_step|].
  frame_step; [frame_step|]. frame_step; [apply frames_warn|].
  frame_step; [apply frames_hash_assets|].
  destruct a2; repeat frame_step.
Qed.

(** The update step, by cases on the downloads, the mode and the write. *)
Lemma apply_update_spec (dry : bool) (rel : release)
      (m : Dict.t Json.value) (cur : Json.value) (s : Sys) :
  let v := release_version rel in
  let w := world s in
  exists extra,
    if all_downloads_ok w (find_asset_urls rel v) then
      if dry then
        apply_update dry rel v m cur s = (Ok true, extend s extra)
        /\ writes extra = []
        /\ In (preview_text w rel) (printed extra)
      else
        match write_fault w with
        | None =>
            apply_update dry rel v m cur s
            = (Ok true,
               {| world := with_disk w (Some (committed_text w rel m));
                  trace := trace s ++ extra |})
        | Some f =>
            apply_update dry rel v m cur s
            = (Ok false,
               {| world := with_disk w (left_on_disk f);
                  trace := trace s ++ extra |})
        end
        /\ writes extra = [committed_text w rel m]
    else
      apply_update dry rel v m cur s = (Ok false, extend s extra)
      /\ writes extra = [].
Proof.
  intros v w. unfold apply_update. mstep. fold v.
  destruct (negb (List.length (find_asset_urls rel v) =? 3)%nat); mstep.
  all: match goal with
       | |- context [hash_assets _ [] (extend ?st ?l)] =>
           destruct (hash_assets_all rel v (extend st l)) as [x2 [E2 W2]];
           rewrite world_extend, extend_extend in E2; rewrite E2
       end.
  all: fold w; destruct (all_downloads_ok w (find_asset_urls rel v)).
  all: try (mstep; eexists; split; [reflexivity|];
            cbn [app writes]; rewrite !writes_app, W2; reflexivity).
  all: destruct dry; mstep.
  all: try (eexists; split; [reflexivity|]; split;
            [ cbn [app writes]; rewrite !writes_app, W2; reflexivity
            | cbn [app printed]; rewrite !printed_app; cbn [printed];
              unfold preview_text; fold v; in_search ]).
  all: unfold save_manifest, try_except, write_manifest; mstep.
  all: rewrite ?world_extend, ?trace_extend; fold w;
    fold (committed_text w rel m).
  all: destruct (write_fault w) as [f|]; cbn [is_Exception]; mstep.
  all: eexists; split;
    [ unfold extend; cbn [world trace]; rewrite <- ?app_assoc; reflexivity
    | ].
  all: repeat first [ progress cbn [app writes]
                    | rewrite writes_app
                    | rewrite W2 ].
  all: reflexivity.
Qed.

End UpdaterRuns.

Section MainRuns.
Import UpdateMufiz.
Local Open Scope list_scope.

(** With a release fetched and a non-empty manifest object loaded,
    [update_manifest] compares the versions and either reports the
    manifest up to date or goes on to the update step. *)
Lemma update_manifest_loaded dry s rel text m :
  api (world s) = ApiRelease rel ->
  disk (world s) = Some text ->
  json_loads (world s) text = Parsed (Json.Obj m) ->
  m <> [] ->
  update_manifest dry s
  = if Json.eq_str (release_version rel) (current_version_of m) then
      (Ok true,
       extend s (preamble (world s) rel m
                 ++ [EPrint "Manifest is already up to date!"]))
    else
      apply_update dry rel (release_version rel) m (current_version_of m)
                   (extend s (preamble (world s) rel m)).
Proof.
  intros Hapi Hdisk Hjson Hm.
  unfold update_manifest, get_latest_release, load_manifest, read_manifest,
    try_except.
  mstep. rewrite Hapi. mstep. rewrite Hdisk, Hjson. mstep.
  destruct m as [|kv m]; [contradiction|]. cbn [Json.truthy negb]. mstep.
  destruct (Json.eq_str _ _); mstep; reflexivity.
Qed.

Lemma world_started argv s : world (started argv s) = world s.
Proof. unfold started. destruct (dry_run_flag argv); reflexivity. Qed.

Lemma writes_started argv s :
  writes (trace (started argv s)) = writes (trace s).
Proof.
  unfold started. destruct (dry_run_flag argv); [|reflexivity].
  rewrite trace_extend, writes_app, app_nil_r. reflexivity.
Qed.

Lemma requests_started argv s :
  requests (trace (started argv s)) = requests (trace s).
Proof.
  unfold started. destruct (dry_run_flag argv); [|reflexivity].
  rewrite trace_extend, requests_app, app_nil_r. reflexivity.
Qed.

(** [main] once the manifest file is known to exist: the exit status
    follows the result of [update_manifest]; one more line is printed. *)
Lemma main_after argv s text r s' :
  disk (world s) = Some text ->
  update_manifest (dry_run_flag argv) (started argv s) = (r, s') ->
  exit_status (fst (main argv s))
  = match r with
    | Ok true => 0
    | Ok false => 1
    | Raise e => exit_status (@Raise unit e)
    end
  /\ world (snd (main argv s)) = world s'
  /\ writes (trace (snd (main argv s))) = writes (trace s')
  /\ requests (trace (snd (main argv s))) = requests (trace s')
  /\ (forall t, In t (printed (trace s')) ->
                In t (printed (trace (snd (main argv s))))).
Proof.
  intros Hdisk Hrun. unfold started in Hrun.
  unfold main, path_exists. fold (dry_run_flag argv).
  destruct (dry_run_flag argv); mstep; rewrite Hdisk; cbn [negb]; mstep;
    rewrite Hrun; destruct r as [[|]|e]; mstep;
    rewrite ?world_extend, ?trace_extend, ?writes_app, ?requests_app,
      ?printed_app, ?app_nil_r;
    repeat split; intros; try assumption;
    apply in_or_app; left; assumption.
Qed.

End MainRuns.

(* ================================================================== *)
(** * The Manifest Updater *)

Section UpdaterClaims.
Import UpdateMufiz.
Local Open Scope list_scope.

Lemma truthy_obj_nonempty m : Json.truthy (Json.Obj m) = true -> m <> [].
Proof. destruct m; [discriminate|]. intros _. discriminate. Qed.

Lemma writes_preamble w rel m : writes (preamble w rel m) = [].
Proof. reflexivity. Qed.

Lemma requests_preamble w rel m :
  requests (preamble w rel m) = [latest_url].
Proof. reflexivity. Qed.

(** Everything [main] does after a release and a non-empty manifest
    object are in hand, when the versions differ. *)
Lemma main_update argv w rel text m :
  api w = ApiRelease rel ->
  disk w = Some text ->
  json_loads w text = Parsed (Json.Obj m) ->
  Json.truthy (Json.Obj m) = true ->
  Json.eq_str (release_version rel) (current_version_of m) = false ->
  update_manifest (dry_run_flag argv) (started argv (boot w))
  = apply_update (dry_run_flag argv) rel (release_version rel) m
      (current_version_of m)
      (extend (started argv (boot w)) (preamble w rel m)).
Proof.
  intros Hapi Hdisk Hjson Hm Hneq.
  pose proof (update_manifest_loaded (dry_run_flag argv)
                (started argv (boot w)) rel text m) as L.
  rewrite world_started in L. cbn [boot world] in L.
  rewrite (L Hapi Hdisk Hjson (truthy_obj_nonempty m Hm)), Hneq.
  reflexivity.
Qed.

(** A dry run of [update_manifest] writes nothing, whatever the world. *)
Lemma frames_update_manifest_dry : frames (update_manifest true).
Proof.
  unfold update_manifest.
  repeat first
    [ apply frames_get_latest_release
    | apply frames_load_manifest
    | apply frames_apply_update_dry
    | frame_step
    | match goal with
      | |- frames (match ?x with _ => _ end) => destruct x
      end ].
Qed.

Lemma frames_main_dry argv :
  dry_run_flag argv = true -> frames (main argv).
Proof.
  intros Hdry. unfold main, path_exists. fold (dry_run_flag argv).
  rewrite Hdry.
  repeat first [ apply frames_update_manifest_dry | frame_step ].
Qed.

(** Either [update_manifest] gets as far as the update step, or it
    returns without touching the file. *)
Lemma update_manifest_cases dry s :
  (exists rel text m,
      api (world s) = ApiRelease rel
      /\ disk (world s) = Some text
      /\ json_loads (world s) text = Parsed (Json.Obj m)
      /\ Json.truthy (Json.Obj m) = true
      /\ Json.eq_str (release_version rel) (current_version_of m) = false)
  \/ (exists extra,
         snd (update_manifest dry s) = extend s extra /\ writes extra = []).
Proof.
  destruct (api (world s)) as [err|rel] eqn:Hapi;
    [|destruct (disk (world s)) as [text|] eqn:Hdisk;
      [destruct (json_loads (world s) text) as [v|err] eqn:Hjson;
       [destruct (Json.truthy v) eqn:Ht;
        [destruct v as [| | | | | |m];
         [| | | | | |destruct (Json.eq_str (release_version rel)
                                 (current_version_of m)) eqn:He]|]|]|]].
  all: try (left; exists rel, text, m; repeat split; assumption).
  all: right.
  all: try (rewrite (update_manifest_loaded dry s rel text m Hapi Hdisk Hjson
                       (truthy_obj_nonempty m Ht)), He;
            eexists; split; [reflexivity|];
            unfold preamble; reflexivity).
  all: unfold update_manifest, get_latest_release, load_manifest,
         read_manifest, try_except; mstep; rewrite Hapi;
       cbn [is_RequestException]; mstep;
       rewrite ?Hdisk, ?Hjson; mstep; rewrite ?Ht; cbn [negb]; mstep;
       eexists; split; reflexivity.
Qed.

End UpdaterClaims.

Lemma missing_manifest_absent (w : World) (argv : list string) :
  disk w = None ->
  world (snd (run (UpdateMufiz.main argv) w)) = w
  /\ writes (trace (snd (run (UpdateMufiz.main argv) w))) = [].
Proof.
  intros Hdisk.
  unfold run, UpdateMufiz.main, UpdateMufiz.path_exists. mstep.
  cbn [boot world]. rewrite Hdisk. cbn [negb]. mstep.
  split; reflexivity.
Qed.

(** C9.  When the manifest file does not exist, [main] exits with status 1
    and has made no network request. *)
Theorem missing_manifest_exits_before_network :
  forall (w : World) (argv : list string),
    disk w = None ->
    fst (run (UpdateMufiz.main argv) w) = Raise (SystemExit 1)
    /\ exit_status (fst (run (UpdateMufiz.main argv) w)) = 1
    /\ requests (trace (snd (run (UpdateMufiz.main argv) w))) = []
    /\ world (snd (run (UpdateMufiz.main argv) w)) = w.
Proof.
  intros w argv Hdisk.
  unfold run, UpdateMufiz.main, UpdateMufiz.path_exists. mstep.
  cbn [boot world]. rewrite Hdisk. cbn [negb]. mstep.
  repeat split.
Qed.

(** C4.  When the loaded manifest's [version] is the version derived from
    the release tag, the updater prints that the manifest is already up to
    date, exits with status 0, leaves the file as it is and requests
    nothing but the release description. *)
Theorem matching_version_leaves_manifest :
  forall (w : World) (argv : list string) (rel : release) (text : string)
         (m : Dict.t Json.value),
    api w = ApiRelease rel ->
    disk w = Some text ->
    json_loads w text = Parsed (Json.Obj m) ->
    Dict.get m "version" = Some (Json.Str (UpdateMufiz.release_version rel)) ->
    exit_status (fst (run (UpdateMufiz.main argv) w)) = 0
    /\ world (snd (run (UpdateMufiz.main argv) w)) = w
    /\ writes (trace (snd (run (UpdateMufiz.main argv) w))) = []
    /\ requests (trace (snd (run (UpdateMufiz.main argv) w)))
       = [UpdateMufiz.latest_url]
    /\ In "Manifest is already up to date!"
          (printed (trace (snd (run (UpdateMufiz.main argv) w)))).
Proof.
  intros w argv rel text m Hapi Hdisk Hjson Hver.
  assert (Hm : m <> []) by (destruct m; [discriminate Hver|discriminate]).
  pose proof (update_manifest_loaded (dry_run_flag argv)
                (started argv (boot w)) rel text m) as L.
  rewrite world_started in L. cbn [boot world] in L.
  specialize (L Hapi Hdisk Hjson Hm).
  unfold UpdateMufiz.current_version_of in L at 1. rewrite Hver in L.
  cbn [Json.eq_str] in L. rewrite String.eqb_refl in L.
  destruct (main_after argv (boot w) text _ _ Hdisk L) as (A & B & C & D & E).
  unfold run. rewrite A, B, C, D.
  rewrite world_extend, world_started, trace_extend, writes_app,
    requests_app, writes_started, requests_started, writes_app, requests_app.
  repeat split.
  apply E. rewrite trace_extend, printed_app, printed_app.
  apply in_or_app. right. apply in_or_app. right. left. reflexivity.
Qed.

(** C3.  When the download of some resolved asset fails, the run ends with
    exit status 1, the world (and so the manifest file) is what it was and
    the file was never opened for writing. *)
Theorem failed_download_commits_nothing :
  forall (w : World) (argv : list string) (rel : release) (text : string)
         (m : Dict.t Json.value),
    api w = ApiRelease rel ->
    disk w = Some text ->
    json_loads w text = Parsed (Json.Obj m) ->
    Json.truthy (Json.Obj m) = true ->
    Json.eq_str (UpdateMufiz.release_version rel)
                (UpdateMufiz.current_version_of m) = false ->
    existsb (fun kv => download_fails w (snd kv))
            (UpdateMufiz.find_asset_urls rel (UpdateMufiz.release_version rel))
    = true ->
    exit_status (fst (run (UpdateMufiz.main argv) w)) = 1
    /\ world (snd (run (UpdateMufiz.main argv) w)) = w
    /\ disk (world (snd (run (UpdateMufiz.main argv) w))) = disk w
    /\ writes (trace (snd (run (UpdateMufiz.main argv) w))) = [].
Proof.
  intros w argv rel text m Hapi Hdisk Hjson Hm Hneq Hfail.
  pose proof (main_update argv w rel text m Hapi Hdisk Hjson Hm Hneq) as L.
  destruct (apply_update_spec (dry_run_flag argv) rel m
              (UpdateMufiz.current_version_of m)
              (extend (started argv (boot w)) (preamble w rel m)))
    as [x S].
  cbn zeta in S. rewrite world_extend, world_started in S.
  cbn [boot world] in S. unfold all_downloads_ok in S. rewrite Hfail in S.
  cbn [negb] in S. destruct S as [S W]. rewrite S in L.
  destruct (main_after argv (boot w) text _ _ Hdisk L) as (A & B & C & _).
  unfold run. rewrite A, B, C.
  rewrite !world_extend, world_started, !trace_extend, !writes_app,
    writes_started, W.
  repeat split.
Qed.

(** No partial commit, in any world and for any arguments: either the
    world is what it was and the manifest was never opened for writing, or
    every resolved asset was downloaded and hashed and the one text handed
    to the file is the complete new manifest. *)
Theorem commit_is_all_or_nothing :
  forall (w : World) (argv : list string),
    (world (snd (run (UpdateMufiz.main argv) w)) = w
     /\ writes (trace (snd (run (UpdateMufiz.main argv) w))) = [])
    \/ (exists rel text m,
           api w = ApiRelease rel
           /\ disk w = Some text
           /\ json_loads w text = Parsed (Json.Obj m)
           /\ all_downloads_ok w
                (UpdateMufiz.find_asset_urls rel
                   (UpdateMufiz.release_version rel)) = true
           /\ writes (trace (snd (run (UpdateMufiz.main argv) w)))
              = [committed_text w rel m]).
Proof.
  intros w argv.
  destruct (disk w) as [text|] eqn:Hdisk.
  2:{ left.
      destruct (missing_manifest_absent w argv Hdisk) as [E W].
      split; assumption. }
  destruct (UpdateMufiz.update_manifest (dry_run_flag argv)
              (started argv (boot w))) as [r s'] eqn:Hrun.
  destruct (main_after argv (boot w) text r s' Hdisk Hrun)
    as (_ & B & C & _).
  unfold run. rewrite B, C.
  destruct (update_manifest_cases (dry_run_flag argv) (started argv (boot w)))
    as [(rel & text' & m & Hapi & Hdisk' & Hjson & Hm & Hneq)|[x [E W]]].
  - rewrite world_started in Hapi, Hdisk', Hjson. cbn [boot world] in *.
    assert (text' = text) by congruence. subst text'.
    pose proof (main_update argv w rel text m Hapi Hdisk Hjson Hm Hneq) as L.
    rewrite Hrun in L.
    destruct (apply_update_spec (dry_run_flag argv) rel m
                (UpdateMufiz.current_version_of m)
                (extend (started argv (boot w)) (preamble w rel m)))
      as [y S].
    cbn zeta in S. rewrite world_extend, world_started in S.
    cbn [boot world] in S. rewrite <- L in S.
    destruct (all_downloads_ok w _) eqn:Hok.
    + destruct (dry_run_flag argv).
      * left. destruct S as (S & W & _). injection S as _ ->.
        rewrite !world_extend, world_started, !trace_extend, !writes_app,
          writes_started, W.
        split; reflexivity.
      * right. exists rel, text, m.
        destruct S as [S W].
        assert (T : trace s'
                    = (trace (extend (started argv (boot w))
                                (preamble w rel m)) ++ y)%list).
        { destruct (write_fault w); injection S as _ ->; reflexivity. }
        rewrite T, !trace_extend, !writes_app, writes_started, W.
        repeat split; assumption.
    + left. destruct S as [S W]. injection S as _ ->.
      rewrite !world_extend, world_started, !trace_extend, !writes_app,
        writes_started, W.
      split; reflexivity.
  - left. rewrite Hrun in E. cbn [snd] in E. subst s'.
    rewrite world_extend, world_started, trace_extend, writes_app,
      writes_started, W.
    split; reflexivity.
Qed.

(** C5.  With [--dry-run] or [-n] among the arguments the run never opens
    the manifest for writing and leaves the world as it was, whatever
    happens; when a release and a manifest are loaded, the versions differ
    and every download succeeds, the new version and architecture section
    are printed as JSON indented by two spaces and the exit status is 0. *)
Theorem dry_run_never_writes :
  forall (w : World) (argv : list string),
    dry_run_flag argv = true ->
    world (snd (run (UpdateMufiz.main argv) w)) = w
    /\ disk (world (snd (run (UpdateMufiz.main argv) w))) = disk w
    /\ writes (trace (snd (run (UpdateMufiz.main argv) w))) = []
    /\ forall (rel : release) (text : string) (m : Dict.t Json.value),
         api w = ApiRelease rel ->
         disk w = Some text ->
         json_loads w text = Parsed (Json.Obj m) ->
         Json.truthy (Json.Obj m) = true ->
         Json.eq_str (UpdateMufiz.release_version rel)
                     (UpdateMufiz.current_version_of m) = false ->
         all_downloads_ok w
           (UpdateMufiz.find_asset_urls rel (UpdateMufiz.release_version rel))
         = true ->
         exit_status (fst (run (UpdateMufiz.main argv) w)) = 0
         /\ In (preview_text w rel)
               (printed (trace (snd (run (UpdateMufiz.main argv) w)))).
Proof.
  intros w argv Hdry.
  destruct (frames_main_dry argv Hdry (boot w)) as [x [E W]].
  unfold run. split; [rewrite E; reflexivity|].
  split; [rewrite E; reflexivity|].
  split; [rewrite E, trace_extend, writes_app, W; reflexivity|].
  clear x E W.
  intros rel text m Hapi Hdisk Hjson Hm Hneq Hok.
  pose proof (main_update argv w rel text m Hapi Hdisk Hjson Hm Hneq) as L.
  destruct (apply_update_spec (dry_run_flag argv) rel m
              (UpdateMufiz.current_version_of m)
              (extend (started argv (boot w)) (preamble w rel m)))
    as [y S].
  cbn zeta in S. rewrite world_extend, world_started in S.
  cbn [boot world] in S. rewrite Hok, Hdry in S.
  destruct S as (S & _ & P). rewrite Hdry in L. rewrite S in L.
  rewrite <- Hdry in L at 1.
  destruct (main_after argv (boot w) text _ _ Hdisk L) as (A & _ & _ & _ & I).
  split; [exact A|].
  apply I. rewrite trace_extend, printed_app. apply in_or_app. right. exact P.
Qed.

(** C6.  After a successful update outside dry-run mode the file holds
    the loaded manifest with [version] set to the derived version and
    [architecture] replaced by the section built from the resolved assets
    of this release (its labels are exactly the resolved ones); every
    other key has the value it had. *)
Theorem successful_update_commits_manifest :
  forall (w : World) (argv : list string) (rel : release) (text : string)
         (m : Dict.t Json.value),
    dry_run_flag argv = false ->
    api w = ApiRelease rel ->
    disk w = Some text ->
    json_loads w text = Parsed (Json.Obj m) ->
    Json.truthy (Json.Obj m) = true ->
    Json.eq_str (UpdateMufiz.release_version rel)
                (UpdateMufiz.current_version_of m) = false ->
    all_downloads_ok w
      (UpdateMufiz.find_asset_urls rel (UpdateMufiz.release_version rel))
    = true ->
    write_fault w = None ->
    let v := UpdateMufiz.release_version rel in
    let urls := UpdateMufiz.find_asset_urls rel v in
    let m' := UpdateMufiz.updated_manifest m v (arch_section w urls) in
    exit_status (fst (run (UpdateMufiz.main argv) w)) = 0
    /\ disk (world (snd (run (UpdateMufiz.main argv) w)))
       = Some (Json.dumps (Some 4%nat) false (Json.Obj m'))
    /\ writes (trace (snd (run (UpdateMufiz.main argv) w)))
       = [Json.dumps (Some 4%nat) false (Json.Obj m')]
    /\ Dict.get m' "version" = Some (Json.Str v)
    /\ Dict.get m' "architecture" = Some (Json.Obj (arch_section w urls))
    /\ Dict.keys (arch_section w urls) = Dict.keys urls
    /\ forall k : string,
         k <> "version" -> k <> "architecture" -> Dict.get m' k = Dict.get m k.
Proof.
  intros w argv rel text m Hwet Hapi Hdisk Hjson Hm Hneq Hok Hwrite v urls m'.
  pose proof (main_update argv w rel text m Hapi Hdisk Hjson Hm Hneq) as L.
  destruct (apply_update_spec (dry_run_flag argv) rel m
              (UpdateMufiz.current_version_of m)
              (extend (started argv (boot w)) (preamble w rel m)))
    as [x S].
  cbn zeta in S. rewrite world_extend, world_started in S.
  cbn [boot world] in S. rewrite Hok, Hwet, Hwrite in S.
  destruct S as [S W]. rewrite Hwet in L. rewrite S in L.
  rewrite <- Hwet in L at 1.
  destruct (main_after argv (boot w) text _ _ Hdisk L) as (A & B & C & _).
  unfold run. rewrite A, B, C. cbn [world trace with_disk disk].
  rewrite !trace_extend, !writes_app, writes_started, W.
  split; [reflexivity|]. split; [reflexivity|]. split; [reflexivity|].
  unfold m', UpdateMufiz.updated_manifest.
  split; [rewrite get_set_other by discriminate; apply get_set_same|].
  split; [apply get_set_same|].
  split.
  - unfold arch_section, Dict.keys. rewrite map_map. reflexivity.
  - intros k Hk1 Hk2. rewrite !get_set_other by assumption. reflexivity.
Qed.

(** C10 as stated fails: the manifest [{}] parses and has no [version]
    key, yet the run ends with exit status 1 without reading a current
    version. *)
Lemma empty_manifest_update_fails :
  json_loads empty_manifest_world "{}" = Parsed (Json.Obj [])
  /\ Dict.get (V := Json.value) [] "version" = None
  /\ exit_status
       (fst (run (UpdateMufiz.main ["update_mufiz.py"]) empty_manifest_world))
     = 1
  /\ printed
       (trace (snd (run (UpdateMufiz.main ["update_mufiz.py"])
                        empty_manifest_world)))
     = [ "Fetching latest release information...";
         "Latest version: 1.0";
         "Loading current manifest...";
         String Json.newline "‚ùå Update failed!" ]
  /\ ~ In "Current version: unknown"
          (printed
             (trace (snd (run (UpdateMufiz.main ["update_mufiz.py"])
                              empty_manifest_world)))).
Proof.
  split; [reflexivity|]. split; [reflexivity|]. split; [reflexivity|].
  split; [reflexivity|].
  vm_compute. intros H.
  repeat (destruct H as [H|H]; [discriminate H|]). exact H.
Qed.

(** C10, amended.  For a loaded manifest that is a non-empty JSON object
    without a [version] key, the current version is the string
    [unknown]: [update_manifest] prints it and, unless the release
    version is itself [unknown], hands over to the update step with it,
    as it does for any other current version that differs. *)
Theorem missing_version_reads_as_unknown :
  forall (dry : bool) (s : Sys) (rel : release) (text : string)
         (m : Dict.t Json.value),
    api (world s) = ApiRelease rel ->
    disk (world s) = Some text ->
    json_loads (world s) text = Parsed (Json.Obj m) ->
    Json.truthy (Json.Obj m) = true ->
    Dict.get m "version" = None ->
    let v := UpdateMufiz.release_version rel in
    let s1 :=
      extend s [ EPrint "Fetching latest release information...";
                 EGet UpdateMufiz.latest_url;
                 EPrint ("Latest version: " ++ v);
                 EPrint "Loading current manifest...";
                 ERead;
                 EPrint "Current version: unknown" ] in
    UpdateMufiz.current_version_of m = Json.Str "unknown"
    /\ UpdateMufiz.update_manifest dry s
       = if String.eqb v "unknown" then
           (Ok true, extend s1 [EPrint "Manifest is already up to date!"])
         else
           UpdateMufiz.apply_update dry rel v m (Json.Str "unknown") s1.
Proof.
  intros dry s rel text m Hapi Hdisk Hjson Hm Hver v s1.
  assert (Hcur : UpdateMufiz.current_version_of m = Json.Str "unknown").
  { unfold UpdateMufiz.current_version_of. rewrite Hver. reflexivity. }
  split; [exact Hcur|].
  rewrite (update_manifest_loaded dry s rel text m Hapi Hdisk Hjson
             (truthy_obj_nonempty m Hm)).
  unfold preamble. rewrite Hcur. cbn [Json.eq_str UpdateMufiz.py_str].
  fold v. unfold s1. rewrite extend_extend.
  destruct (String.eqb v "unknown"); reflexivity.
Qed.

(* ================================================================== *)
(** * The statements at sample worlds *)

Lemma missing_manifest_exits_before_network_witness :
  exit_status
    (fst (run (UpdateMufiz.main ["update_mufiz.py"]) sample_world)) = 1
  /\ requests
       (trace (snd (run (UpdateMufiz.main ["update_mufiz.py"]) sample_world)))
     = [].
Proof.
  pose proof (missing_manifest_exits_before_network
                sample_world ["update_mufiz.py"] eq_refl) as H.
  split; [exact (proj1 (proj2 H))|exact (proj1 (proj2 (proj2 H)))].
Defined.

Lemma matching_version_leaves_manifest_witness :
  exit_status
    (fst (run (UpdateMufiz.main ["update_mufiz.py"])
              (demo_world same_version ""))) = 0
  /\ world (snd (run (UpdateMufiz.main ["update_mufiz.py"])
                     (demo_world same_version "")))
     = demo_world same_version "".
Proof.
  pose proof (matching_version_leaves_manifest
                (demo_world same_version "") ["update_mufiz.py"]
                demo_release "(manifest)" (demo_manifest same_version)
                eq_refl eq_refl eq_refl eq_refl) as H.
  split; [exact (proj1 H)|exact (proj1 (proj2 H))].
Defined.

Lemma failed_download_commits_nothing_witness :
  exit_status
    (fst (run (UpdateMufiz.main ["update_mufiz.py"])
              (demo_world old_version "https://example.org/x86.zip"))) = 1
  /\ writes
       (trace (snd (run (UpdateMufiz.main ["update_mufiz.py"])
                        (demo_world old_version "https://example.org/x86.zip"))))
     = [].
Proof.
  pose proof (failed_download_commits_nothing
                (demo_world old_version "https://example.org/x86.zip")
                ["update_mufiz.py"] demo_release "(manifest)"
                (demo_manifest old_version)
                eq_refl eq_refl eq_refl eq_refl eq_refl eq_refl) as H.
  split; [exact (proj1 H)|exact (proj2 (proj2 (proj2 H)))].
Defined.

Lemma dry_run_never_writes_witness :
  writes
    (trace (snd (run (UpdateMufiz.main ["update_mufiz.py"; "--dry-run"])
                     (demo_world old_version ""))))
  = []
  /\ exit_status
       (fst (run (UpdateMufiz.main ["update_mufiz.py"; "--dry-run"])
                 (demo_world old_version ""))) = 0.
Proof.
  pose proof (dry_run_never_writes
                (demo_world old_version "")
                ["update_mufiz.py"; "--dry-run"] eq_refl) as H.
  split; [exact (proj1 (proj2 (proj2 H)))|].
  exact (proj1 (proj2 (proj2 (proj2 H)) demo_release "(manifest)"
                  (demo_manifest old_version)
                  eq_refl eq_refl eq_refl eq_refl eq_refl eq_refl)).
Defined.

Lemma successful_update_commits_manifest_witness :
  exit_status
    (fst (run (UpdateMufiz.main ["update_mufiz.py"])
              (demo_world old_version ""))) = 0
  /\ disk (world (snd (run (UpdateMufiz.main ["update_mufiz.py"])
                           (demo_world old_version ""))))
     = Some (Json.dumps (Some 4%nat) false
               (Json.Obj
                  (UpdateMufiz.updated_manifest (demo_manifest old_version)
                     "0.10.0"
                     (arch_section (demo_world old_version "")
                        (UpdateMufiz.find_asset_urls demo_release "0.10.0"))))).
Proof.
  pose proof (successful_update_commits_manifest
                (demo_world old_version "") ["update_mufiz.py"]
                demo_release "(manifest)" (demo_manifest old_version)
                eq_refl eq_refl eq_refl eq_refl eq_refl eq_refl eq_refl
                eq_refl) as H.
  split; [exact (proj1 H)|exact (proj1 (proj2 H))].
Defined.

Lemma missing_version_reads_as_unknown_witness :
  UpdateMufiz.current_version_of (demo_manifest []) = Json.Str "unknown"
  /\ UpdateMufiz.update_manifest false (boot (demo_world [] ""))
     = UpdateMufiz.apply_update false demo_release "0.10.0" (demo_manifest [])
         (Json.Str "unknown")
         (extend (boot (demo_world [] ""))
            [ EPrint "Fetching latest release information...";
              EGet UpdateMufiz.latest_url;
              EPrint "Latest version: 0.10.0";
              EPrint "Loading current manifest...";
              ERead;
              EPrint "Current version: unknown" ]).
Proof.
  exact (missing_version_reads_as_unknown
           false (boot (demo_world [] "")) demo_release "(manifest)"
           (demo_manifest []) eq_refl eq_refl eq_refl eq_refl eq_refl).
Defined.

(** The scenario of a new release: version 0.9.0 on disk, tag v0.10.0
    with three builds. *)
Example demo_update_trace :
  let r := run (UpdateMufiz.main ["update_mufiz.py"])
               (demo_world old_version "") in
  fst r = Raise (SystemExit 0)
  /\ requests (trace (snd r))
     = [ UpdateMufiz.latest_url; "https://example.org/x64.zip";
         "https://example.org/x86.zip"; "https://example.org/arm64.zip" ]
  /\ option_map String.length (disk (world (snd r))) = Some 612%nat.
Proof. vm_compute. repeat split. Qed.

(* ================================================================== *)
(** * json.dumps without indent stays on one line *)

Section SingleLine.
Import Json.

Lemma list_ascii_app a b :
  list_ascii_of_string (a ++ b)
  = (list_ascii_of_string a ++ list_ascii_of_string b)%list.
Proof.
  induction a as [|c a IH]; [reflexivity|].
  change (String c a ++ b) with (String c (a ++ b)).
  cbn [list_ascii_of_string app]. rewrite IH. reflexivity.
Qed.

Lemma single_line_nil : single_line "".
Proof. intros []. Qed.

Lemma single_line_cons c s :
  c <> newline -> single_line s -> single_line (String c s).
Proof. intros Hc Hs [H|H]; [exact (Hc H)|exact (Hs H)]. Qed.

Lemma single_line_app a b :
  single_line a -> single_line b -> single_line (a ++ b).
Proof.
  unfold single_line. rewrite list_ascii_app. intros Ha Hb H.
  apply in_app_or in H. tauto.
Qed.

Lemma hex_digit_not_newline n : Hashlib.hex_digit n <> newline.
Proof.
  intros H. pose proof (hex_digit_is_hex n) as E. rewrite H in E.
  discriminate E.
Qed.

Lemma u_escape_single_line n : single_line (u_escape n).
Proof.
  unfold u_escape, hex4. cbn [map string_of_list_ascii].
  apply single_line_cons; [discriminate|].
  change ("u" ++ ?x) with (String "u" x).
  apply single_line_cons; [discriminate|].
  repeat (apply single_line_cons; [apply hex_digit_not_newline|]).
  apply single_line_nil.
Qed.

Lemma escape_dct_single_line n e :
  escape_dct n = Some e -> single_line e.
Proof.
  unfold escape_dct.
  repeat match goal with
         | |- (if ?c then _ else _) = _ -> _ => destruct c
         end;
    intros H; try discriminate H; injection H as <-;
    try apply u_escape_single_line;
    repeat (apply single_line_cons; [discriminate|]);
    apply single_line_nil.
Qed.

Lemma escape_point_single_line n : single_line (escape_point n).
Proof.
  unfold escape_point. destruct (escape_dct n) as [e|] eqn:E.
  - exact (escape_dct_single_line n e E).
  - destruct ((32 <=? n) && (n <=? 126)) eqn:R.
    + apply single_line_cons; [|apply single_line_nil].
      intros H. apply (f_equal N_of_ascii) in H.
      rewrite N_ascii_embedding in H by lia.
      change (N_of_ascii newline) with 10%N in H. lia.
    + destruct (n <? 65536); [apply u_escape_single_line|].
      apply single_line_app; apply u_escape_single_line.
Qed.

Lemma concat_single_line (l : list string) :
  Forall single_line l -> single_line (String.concat "" l).
Proof.
  induction 1 as [|x l Hx Hl IH]; [apply single_line_nil|].
  cbn [String.concat]. destruct l as [|y l]; [exact Hx|].
  apply single_line_app; [exact Hx|].
  change ("" ++ ?z) with z. exact IH.
Qed.

Lemma encode_str_ascii_single_line s : single_line (encode_str true s).
Proof.
  unfold encode_str, escape_ascii.
  apply single_line_cons; [discriminate|].
  apply single_line_app.
  - apply concat_single_line. apply Forall_forall. intros x Hx.
    apply in_map_iff in Hx. destruct Hx as [n [<- _]].
    apply escape_point_single_line.
  - apply single_line_cons; [discriminate|apply single_line_nil].
Qed.

Lemma report_single_line u0 h0 u1 h1 u2 h2 :
  single_line (dumps None true (report u0 h0 u1 h1 u2 h2)).
Proof.
  unfold dumps, report.
  cbn [encode newline_indent item_separator].
  repeat first
    [ apply encode_str_ascii_single_line
    | apply single_line_nil
    | apply single_line_app
    | apply single_line_cons; [discriminate|] ].
Qed.

End SingleLine.

(* ================================================================== *)
(** * The Hash Reporter *)

Section ReporterRuns.
Local Open Scope list_scope.

(** One round of the loop: an answered, complete transfer goes on with
    the response; anything else ends the script with the exception. *)
Lemma get_whole_eq url s :
  get_whole url s
  = match web (world s) url with
    | Unreachable err => (Raise (RequestException err), extend s [EGet url])
    | Answered r =>
        match broken r with
        | Some err => (Raise (RequestException err), extend s [EGet url])
        | None => (Ok r, extend s [EGet url])
        end
    end.
Proof.
  unfold get_whole, get_stream. mstep.
  destruct (web (world s) url) as [err|r]; mstep; [reflexivity|].
  destruct (broken r); reflexivity.
Qed.

(** What a run of the script prints: nothing, or the one report. *)
Lemma reporter_output w :
  printed (trace (snd (run Hashes.main w))) = []
  \/ exists r0 r1 r2 : response,
       web w (Hashes.link "x86_64-windows") = Answered r0
       /\ web w (Hashes.link "x86-windows-gnu") = Answered r1
       /\ web w (Hashes.link "aarch64-windows") = Answered r2
       /\ printed (trace (snd (run Hashes.main w)))
          = [ Json.dumps None true
                (report (Hashes.link "x86_64-windows") (reported_digest r0)
                        (Hashes.link "x86-windows-gnu") (reported_digest r1)
                        (Hashes.link "aarch64-windows") (reported_digest r2)) ].
Proof.
  unfold run, Hashes.main, Hashes.links.
  cbn [Hashes.enumerate_from Hashes.collect]. mstep.
  rewrite get_whole_eq. cbn [boot world].
  destruct (web w (Hashes.link "x86_64-windows")) as [e0|r0];
    [left; reflexivity|].
  destruct (broken r0); [left; reflexivity|]. mstep.
  rewrite get_whole_eq, world_extend. cbn [boot world].
  destruct (web w (Hashes.link "x86-windows-gnu")) as [e1|r1];
    [left; reflexivity|].
  destruct (broken r1); [left; reflexivity|]. mstep.
  rewrite get_whole_eq, world_extend. cbn [boot world].
  destruct (web w (Hashes.link "aarch64-windows")) as [e2|r2];
    [left; reflexivity|].
  destruct (broken r2); [left; reflexivity|]. mstep.
  right. exists r0, r1, r2. repeat split.
Qed.

End ReporterRuns.

(** C7.  Whatever the Hash Reporter prints is one line: the JSON object
    with the keys [64bit], [32bit] and [arm64] in this order, the key
    following the position of the URL in [links]; each value holds that
    URL, which is not empty, and the SHA-256 digest of the whole body
    answered for it, 64 hexadecimal characters. *)
Theorem hash_report_shape :
  forall (w : World) (text : string),
    In text (printed (trace (snd (run Hashes.main w)))) ->
    exists r0 r1 r2 : response,
      map (web w) Hashes.links = [Answered r0; Answered r1; Answered r2]
      /\ text
         = Json.dumps None true
             (Json.Obj
                [ ("64bit",
                   Json.Obj [("url", Json.Str (nth 0 Hashes.links ""));
                             ("hash", Json.Str (reported_digest r0))]);
                  ("32bit",
                   Json.Obj [("url", Json.Str (nth 1 Hashes.links ""));
                             ("hash", Json.Str (reported_digest r1))]);
                  ("arm64",
                   Json.Obj [("url", Json.Str (nth 2 Hashes.links ""));
                             ("hash", Json.Str (reported_digest r2))]) ])
      /\ printed (trace (snd (run Hashes.main w))) = [text]
      /\ single_line text
      /\ forallb (fun u => negb (String.eqb u "")) Hashes.links = true
      /\ map String.length
             [reported_digest r0; reported_digest r1; reported_digest r2]
         = [64%nat; 64%nat; 64%nat]
      /\ forallb (fun h => forallb is_hex (list_ascii_of_string h))
                 [reported_digest r0; reported_digest r1; reported_digest r2]
         = true.
Proof.
  intros w text Hin.
  destruct (reporter_output w) as [E|(r0 & r1 & r2 & H0 & H1 & H2 & E)].
  - rewrite E in Hin. destruct Hin.
  - rewrite E in Hin. destruct Hin as [<-|[]].
    exists r0, r1, r2.
    split; [cbn [map Hashes.links]; rewrite H0, H1, H2; reflexivity|].
    split; [reflexivity|].
    split; [exact E|].
    split; [apply report_single_line|].
    split; [reflexivity|].
    split.
    + cbn [map]. unfold reported_digest. rewrite !hexdigest_length.
      reflexivity.
    + cbn [forallb]. unfold reported_digest. rewrite !hexdigest_hex.
      reflexivity.
Qed.

Lemma hash_report_shape_witness :
  exists r0 r1 r2 : response,
    map (web (demo_world [] "")) Hashes.links
    = [Answered r0; Answered r1; Answered r2]
    /\ printed (trace (snd (run Hashes.main (demo_world [] ""))))
       = [ Json.dumps None true
             (report (nth 0 Hashes.links "") (reported_digest r0)
                     (nth 1 Hashes.links "") (reported_digest r1)
                     (nth 2 Hashes.links "") (reported_digest r2)) ].
Proof.
  destruct (hash_report_shape
              (demo_world [] "")
              (Json.dumps None true
                 (report
                    (Hashes.link "x86_64-windows")
                    (reported_digest
                       (Response 200 "OK"
                          [Hashlib.bytes_of_string (Hashes.link "x86_64-windows")]
                          None))
                    (Hashes.link "x86-windows-gnu")
                    (reported_digest
                       (Response 200 "OK"
                          [Hashlib.bytes_of_string (Hashes.link "x86-windows-gnu")]
                          None))
                    (Hashes.link "aarch64-windows")
                    (reported_digest
                       (Response 200 "OK"
                          [Hashlib.bytes_of_string (Hashes.link "aarch64-windows")]
                          None))))
              (or_introl eq_refl))
    as (r0 & r1 & r2 & Hweb & Htext & Hout & _).
  exists r0, r1, r2. split; [exact Hweb|].
  rewrite Hout. f_equal. exact Htext.
Defined.

Example reporter_prints_python_output :
  printed (trace (snd (run Hashes.main (demo_world [] ""))))
  = [ String.concat (String Json.quote "")
        [ "{"; "64bit"; ": {"; "url"; ": ";
          "https://github.com/Mustafif/MufiZ/releases/download/next-experimental/mufiz_0.10.0_x86_64-windows.zip";
          ", "; "hash"; ": ";
          "60ba82b19cb5cae5ab342a5cccb8fa1690c18b3b18bef728bc3b13350135f90e";
          "}, "; "32bit"; ": {"; "url"; ": ";
          "https://github.com/Mustafif/MufiZ/releases/download/next-experimental/mufiz_0.10.0_x86-windows-gnu.zip";
          ", "; "hash"; ": ";
          "e03d12e478f2ea91f6dc34d21706cdab84b85b41de310a0e9a4bbbed6786dd2c";
          "}, "; "arm64"; ": {"; "url"; ": ";
          "https://github.com/Mustafif/MufiZ/releases/download/next-experimental/mufiz_0.10.0_aarch64-windows.zip";
          ", "; "hash"; ": ";
          "3f50eb40ad103c8a1b372be0654da8e62137b6bc50b71e66f5835f7e41073215";
          "}}" ] ].
Proof. vm_compute. reflexivity. Qed.

(* ================================================================== *)
(** * find_asset_urls: labels, order, ignored assets *)

Section AssetOrder.
Import UpdateMufiz.
Local Open Scope list_scope.

Lemma in_keys_get {V} (d : Dict.t V) k :
  In k (Dict.keys d) -> exists v, Dict.get d k = Some v.
Proof.
  intros H. destruct (Dict.get d k) as [v|] eqn:E; [exists v; reflexivity|].
  exfalso. exact (get_none_not_in d k E H).
Qed.

Lemma last_url_resolves (l : list asset) label u :
  last_url l label = Some u ->
  exists a, In a l /\ resolve a = Some label.
Proof.
  revert u. induction l as [|a l IH]; intros u; cbn [last_url];
    [discriminate|].
  destruct (last_url l label) as [u'|].
  - intros _. destruct (IH u' eq_refl) as [b [Hb Hr]].
    exists b. split; [right; exact Hb|exact Hr].
  - unfold resolves_to. destruct (resolve a) as [lbl|] eqn:E; [|discriminate].
    destruct (String.eqb label lbl) eqn:El; [|discriminate].
    apply String.eqb_eq in El. subst lbl.
    intros _. exists a. split; [left; reflexivity|exact E].
Qed.

Lemma resolve_label a label : resolve a = Some label -> In label labels.
Proof.
  unfold resolve. destruct (Py.endswith (name a) ".zip"); [|discriminate].
  destruct (find _ ARCH_MAPPINGS) as [kv|] eqn:F; [|discriminate].
  intros H. injection H as <-. apply find_some in F.
  apply in_map. exact (proj1 F).
Qed.

Lemma match_arch_unresolved a urls :
  resolve a = None -> match_arch ARCH_MAPPINGS a urls = urls.
Proof. intros H. rewrite match_arch_resolve, H. reflexivity. Qed.

Lemma no_key_unresolved a : no_key_in a = true -> resolve a = None.
Proof.
  unfold no_key_in, resolve. intros H.
  destruct (Py.endswith (name a) ".zip"); [|reflexivity].
  destruct (find _ ARCH_MAPPINGS) as [kv|] eqn:F; [|reflexivity].
  apply find_some in F. destruct F as [Hin Hk].
  rewrite forallb_forall in H. specialize (H kv Hin).
  rewrite Hk in H. discriminate H.
Qed.

Lemma not_zip_unresolved a :
  Py.endswith (name a) ".zip" = false -> resolve a = None.
Proof. unfold resolve. intros ->. reflexivity. Qed.

End AssetOrder.

(** X1.  The labels [find_asset_urls] returns are pairwise distinct and
    all come from the table, so there are at most three of them. *)
Theorem find_asset_urls_labels :
  forall (r : release) (version : string),
    NoDup (Dict.keys (UpdateMufiz.find_asset_urls r version))
    /\ incl (Dict.keys (UpdateMufiz.find_asset_urls r version)) labels
    /\ (List.length (UpdateMufiz.find_asset_urls r version) <= 3)%nat.
Proof.
  intros r version.
  assert (N : NoDup (Dict.keys (UpdateMufiz.find_asset_urls r version)))
    by apply find_asset_urls_nodup.
  assert (I : incl (Dict.keys (UpdateMufiz.find_asset_urls r version)) labels).
  { intros k Hk. destruct (in_keys_get _ k Hk) as [u Hu].
    unfold UpdateMufiz.find_asset_urls in Hu.
    rewrite get_fold_match_arch in Hu. cbn [Dict.get] in Hu.
    destruct (last_url _ k) as [u'|] eqn:L; [|discriminate Hu].
    destruct (last_url_resolves _ _ _ L) as [a [_ Ha]].
    exact (resolve_label a k Ha). }
  split; [exact N|]. split; [exact I|].
  pose proof (NoDup_incl_length N I) as H.
  unfold Dict.keys in H. rewrite length_map in H. exact H.
Qed.

(** X2.  An asset whose name does not end in [.zip], or in whose name no
    key of the table occurs, is ignored: the result is what it is without
    that asset, wherever the asset stands in the list. *)
Theorem find_asset_urls_ignores :
  forall (tag version : string) (l1 l2 : list asset) (a : asset),
    Py.endswith (name a) ".zip" = false \/ no_key_in a = true ->
    UpdateMufiz.find_asset_urls (Release tag (Some (l1 ++ a :: l2)%list)) version
    = UpdateMufiz.find_asset_urls (Release tag (Some (l1 ++ l2)%list)) version.
Proof.
  intros tag version l1 l2 a H.
  assert (R : resolve a = None).
  { destruct H as [H|H];
      [apply not_zip_unresolved|apply no_key_unresolved]; exact H. }
  unfold UpdateMufiz.find_asset_urls. cbn [assets].
  rewrite !fold_left_app. cbn [fold_left].
  rewrite (match_arch_unresolved a _ R). reflexivity.
Qed.

Lemma find_asset_urls_ignores_witness :
  UpdateMufiz.find_asset_urls partial_release "0.11.0"
  = [("arm64", "https://example.org/arm64.zip")].
Proof.
  exact (eq_trans
           (find_asset_urls_ignores "v0.11.0" "0.11.0" []
              [ Asset "mufiz_0.11.0_aarch64-windows.zip"
                      "https://example.org/arm64.zip";
                Asset "mufiz_0.11.0_x86_64-linux.zip"
                      "https://example.org/linux.zip" ]
              (Asset "mufiz_0.11.0_x86_64-windows.zip.sha256"
                     "https://example.org/x64.sha256")
              (or_introl eq_refl))
           eq_refl).
Defined.

(** X3.  One more asset at the end of the list: if it resolves to a label
    not yet present, the label goes to the end of the labels; if it
    resolves to a label already present, or to nothing, the labels and
    their order stay as they are. *)
Theorem find_asset_urls_order :
  forall (l : list asset) (a : asset),
    Dict.keys (urls_of (l ++ [a])%list)
    = match resolve a with
      | None => Dict.keys (urls_of l)
      | Some label =>
          if Dict.mem (urls_of l) label then Dict.keys (urls_of l)
          else (Dict.keys (urls_of l) ++ [label])%list
      end.
Proof.
  intros l a. unfold urls_of, UpdateMufiz.find_asset_urls. cbn [assets].
  rewrite fold_left_app. cbn [fold_left].
  rewrite match_arch_resolve.
  destruct (resolve a) as [label|]; [|reflexivity].
  unfold Dict.mem.
  destruct (Dict.get _ label) as [u|] eqn:G.
  - apply keys_set_present.
    destruct (in_dec string_dec label (Dict.keys
                (fold_left (fun urls a0 =>
                              UpdateMufiz.match_arch UpdateMufiz.ARCH_MAPPINGS
                                a0 urls) l []))) as [Hin|Hout];
      [exact Hin|].
    rewrite (not_in_get_none _ _ Hout) in G. discriminate G.
  - rewrite set_absent by (apply get_none_not_in; exact G).
    unfold Dict.keys. rewrite map_app. reflexivity.
Qed.

(* ================================================================== *)
(** * download_and_hash and the download loop *)

Section Downloads.
Import UpdateMufiz.
Local Open Scope list_scope.

Lemma reads_app a b : (reads (a ++ b) = reads a + reads b)%nat.
Proof.
  induction a as [|e a IH]; [reflexivity|].
  destruct e; simpl; rewrite IH; reflexivity.
Qed.

(** The events of one download: the announcement, the request and, when it
    fails, the error message. *)
Lemma download_and_hash_events url s :
  exists extra,
    download_and_hash url s
    = (Ok (body_digest (world s) url), extend s extra)
    /\ writes extra = []
    /\ requests extra = [url]
    /\ reads extra = O.
Proof.
  unfold download_and_hash, try_except, get_stream,
    raise_for_status, hash_stream, body_digest, good_status.
  mstep.
  destruct (web (world s) url) as [err|r]; mstep.
  - eexists; repeat split; reflexivity.
  - destruct (400 <=? status_code r) eqn:E4;
      destruct (status_code r <? 500) eqn:E5;
      destruct (500 <=? status_code r) eqn:E55;
      destruct (status_code r <? 600) eqn:E6;
      destruct (status_code r <? 400) eqn:E3;
      destruct (600 <=? status_code r) eqn:E7;
      try lia;
      cbn [andb orb is_RequestException]; mstep;
      try (eexists; repeat split; reflexivity);
      destruct (broken r); cbn [is_RequestException]; mstep;
      try rewrite fold_update_concat;
      eexists; repeat split; reflexivity.
Qed.

(** The loop requests the URLs in order and stops after the first
    failure. *)
Lemma hash_assets_events (items : list (string * string)) :
  forall updated_archs s,
  exists extra,
    hash_assets items updated_archs s
    = (Ok (if existsb (fun kv => download_fails (world s) (snd kv)) items
           then None
           else Some (fold_left
                        (fun acc kv =>
                           Dict.set acc (fst kv) (snd (entry_of (world s) kv)))
                        items updated_archs)),
       extend s extra)
    /\ writes extra = []
    /\ requests extra = attempted (world s) (map snd items)
    /\ reads extra = O.
Proof.
  induction items as [|[arch url] items IH]; intros acc s.
  - exists []. rewrite extend_nil. repeat split; reflexivity.
  - cbn [hash_assets existsb fold_left map attempted]. mstep.
    destruct (download_and_hash_events url (extend s
                [EPrint ("Processing " ++ arch ++ " architecture...")]))
      as [x (E & W & R & D)].
    rewrite world_extend in E. rewrite E. mstep.
    unfold download_fails at 1 3. unfold entry_of at 2. cbn [fst snd].
    destruct (body_digest (world s) url) as [h|] eqn:B.
    + rewrite (body_digest_nonempty _ _ _ B). cbn [negb orb]. mstep.
      match goal with
      | |- context [hash_assets items ?a (extend s ?l)] =>
          destruct (IH a (extend s l)) as [y (E' & W' & R' & D')];
          rewrite world_extend, extend_extend in E'; rewrite E';
          exists (l ++ y); split; [reflexivity|];
          change l with ([EPrint ("Processing " ++ arch ++ " architecture...")]
                         ++ x ++ [EPrint ("  ‚úì " ++ arch ++ ": " ++ h)]);
          rewrite !writes_app, !requests_app, !reads_app, W, W', R, R', D, D';
          rewrite world_extend
      end.
      repeat split.
    + cbn [orb]. mstep. eexists. split; [reflexivity|].
      change (writes ([EPrint ("Processing " ++ arch ++ " architecture...")]
                      ++ x ++ [EPrint ("  ‚úó Failed to process " ++ arch)])
              = []
              /\ requests
                   ([EPrint ("Processing " ++ arch ++ " architecture...")]
                    ++ x ++ [EPrint ("  ‚úó Failed to process " ++ arch)])
                 = [url]
              /\ reads ([EPrint ("Processing " ++ arch ++ " architecture...")]
                        ++ x ++ [EPrint ("  ‚úó Failed to process " ++ arch)])
                 = O).
      rewrite !writes_app, !requests_app, !reads_app, W, R, D.
      repeat split.
Qed.

End Downloads.

(** X4.  [download_and_hash] never raises and touches nothing: it makes
    exactly one request, to the URL it is given, and returns the SHA-256
    of the whole body, or [None] when the host cannot be reached, the
    status is a 4xx or 5xx, or the transfer breaks. *)
Theorem download_and_hash_contract :
  forall (url : string) (s : Sys),
    fst (UpdateMufiz.download_and_hash url s)
    = Ok (body_digest (world s) url)
    /\ world (snd (UpdateMufiz.download_and_hash url s)) = world s
    /\ writes (trace (snd (UpdateMufiz.download_and_hash url s)))
       = writes (trace s)
    /\ requests (trace (snd (UpdateMufiz.download_and_hash url s)))
       = (requests (trace s) ++ [url])%list.
Proof.
  intros url s.
  destruct (download_and_hash_events url s) as [x (E & W & R & _)].
  rewrite E. cbn [fst snd].
  rewrite world_extend, trace_extend, writes_app, requests_app, W, R,
    app_nil_r.
  repeat split.
Qed.

(** X5.  A digest returned by [download_and_hash] is 64 characters long,
    all of them lowercase hexadecimal digits; in particular it is never
    the empty string, which the caller would take for a failure. *)
Theorem download_and_hash_digest_shape :
  forall (url : string) (s : Sys) (h : string),
    fst (UpdateMufiz.download_and_hash url s) = Ok (Some h) ->
    String.length h = 64%nat
    /\ forallb is_hex (list_ascii_of_string h) = true
    /\ String.eqb h "" = false.
Proof.
  intros url s h H.
  destruct (download_and_hash_events url s) as [x (E & _)].
  rewrite E in H. cbn [fst] in H. injection H as H.
  pose proof (body_digest_nonempty _ _ _ H) as N.
  unfold body_digest in H.
  destruct (web (world s) url) as [|r]; [discriminate|].
  destruct (good_status r); [|discriminate].
  destruct (broken r); [discriminate|].
  injection H as <-.
  split; [apply hexdigest_length|]. split; [apply hexdigest_hex|exact N].
Qed.

Lemma download_and_hash_digest_shape_witness :
  String.length
    "7893948f883788d6f43672f1542b9e25805f375cfee6d4c3fc33fa43ebb05352"
  = 64%nat.
Proof.
  exact (proj1 (download_and_hash_digest_shape
                  "u" (boot sample_world)
                  "7893948f883788d6f43672f1542b9e25805f375cfee6d4c3fc33fa43ebb05352"
                  eq_refl)).
Defined.

(* ================================================================== *)
(** * The events of the update step *)

Section UpdateEvents.
Import UpdateMufiz.
Local Open Scope list_scope.

(** The whole trace of the update step: the announcement, the warning
    about the number of assets, the downloads, the closing events. *)
Lemma apply_update_trace (dry : bool) (rel : release)
      (m : Dict.t Json.value) (cur : Json.value) (s : Sys) :
  let v := release_version rel in
  let w := world s in
  let urls := find_asset_urls rel v in
  exists x,
    trace (snd (apply_update dry rel v m cur s))
    = trace s
      ++ EPrint ("Updating from version " ++ py_str w cur ++ " to " ++ v)
         :: warning_events urls ++ x ++ closing_events dry w rel m
    /\ writes x = []
    /\ requests x = attempted w (map snd urls)
    /\ reads x = O.
Proof.
  intros v w urls. unfold apply_update, warning_events, closing_events.
  mstep. fold v. fold urls.
  destruct (negb (List.length urls =? 3)%nat); mstep.
  all: match goal with
       | |- context [hash_assets _ [] (extend ?st ?l)] =>
           destruct (hash_assets_events urls [] (extend st l))
             as [x (E & W & R & D)];
           rewrite world_extend, extend_extend in E; rewrite E;
           rewrite world_extend in R
       end.
  all: exists x; fold w.
  all: unfold all_downloads_ok.
  all: destruct (existsb (fun kv => download_fails w (snd kv)) urls) eqn:F;
    cbn [negb]; mstep.
  all: try (rewrite trace_extend, app_nil_r; cbn [app];
            repeat (rewrite <- app_assoc; cbn [app]);
            repeat split; first [reflexivity | assumption]).
  all: rewrite fold_set_entries by apply find_asset_urls_nodup.
  all: cbn [app]; fold (arch_section w urls).
  all: destruct dry; mstep.
  all: try (rewrite trace_extend; cbn [app];
            repeat (rewrite <- app_assoc; cbn [app]);
            repeat split; first [reflexivity | assumption]).
  all: unfold save_manifest, try_except, write_manifest; mstep.
  all: rewrite ?world_extend, ?trace_extend; fold w.
  all: destruct (write_fault w) as [f|]; cbn [is_Exception]; mstep.
  all: rewrite ?trace_extend; cbn [trace exn_str app];
    repeat (rewrite <- app_assoc; cbn [app]);
    repeat split; first [reflexivity | assumption].
Qed.

End UpdateEvents.

(* ================================================================== *)
(** * Runs that end before the update step *)

(** Unfold [main] down to the primitive actions. *)
Ltac run_main argv :=
  unfold run, UpdateMufiz.main, UpdateMufiz.path_exists,
    UpdateMufiz.update_manifest, UpdateMufiz.get_latest_release,
    UpdateMufiz.load_manifest, UpdateMufiz.read_manifest, try_except;
  fold (dry_run_flag argv).

(** X6.  When the releases endpoint cannot be queried, the error is
    printed and the run ends with exit status 1 after that one request:
    the manifest file is neither read nor written. *)
Theorem fetch_failure_stops_run :
  forall (w : World) (argv : list string) (text err : string),
    disk w = Some text ->
    api w = ApiError err ->
    exit_status (fst (run (UpdateMufiz.main argv) w)) = 1
    /\ world (snd (run (UpdateMufiz.main argv) w)) = w
    /\ requests (trace (snd (run (UpdateMufiz.main argv) w)))
       = [UpdateMufiz.latest_url]
    /\ reads (trace (snd (run (UpdateMufiz.main argv) w))) = O
    /\ writes (trace (snd (run (UpdateMufiz.main argv) w))) = []
    /\ In ("Error fetching latest release: " ++ err)
          (printed (trace (snd (run (UpdateMufiz.main argv) w)))).
Proof.
  intros w argv text err Hdisk Hapi. run_main argv.
  destruct (dry_run_flag argv); mstep; cbn [boot world];
    rewrite Hdisk; cbn [negb]; mstep; cbn [boot world];
    rewrite Hapi; cbn [is_RequestException]; mstep;
    cbn [boot trace app requests reads writes printed exn_str];
    repeat split; in_search.
Qed.

Lemma fetch_failure_stops_run_witness :
  exit_status
    (fst (run (UpdateMufiz.main ["update_mufiz.py"])
              (staged_world (ApiError "connection refused")
                 (Parsed (Json.Obj (demo_manifest old_version))) None "")))
  = 1.
Proof.
  exact (proj1 (fetch_failure_stops_run
                  (staged_world (ApiError "connection refused")
                     (Parsed (Json.Obj (demo_manifest old_version))) None "")
                  ["update_mufiz.py"] "(manifest)" "connection refused"
                  eq_refl eq_refl)).
Defined.



(** X8.  When the manifest decodes to a value Python takes for false
    ([null], [false], [0], an empty string, list or object), the run ends
    with exit status 1 and prints no reason: after "Loading current
    manifest..." comes the failure line.  Nothing is downloaded or
    written. *)
Theorem falsy_manifest_fails_silently :
  forall (w : World) (argv : list string) (rel : release) (text : string)
         (v : Json.value),
    disk w = Some text ->
    api w = ApiRelease rel ->
    json_loads w text = Parsed v ->
    Json.truthy v = false ->
    exit_status (fst (run (UpdateMufiz.main argv) w)) = 1
    /\ world (snd (run (UpdateMufiz.main argv) w)) = w
    /\ requests (trace (snd (run (UpdateMufiz.main argv) w)))
       = [UpdateMufiz.latest_url]
    /\ writes (trace (snd (run (UpdateMufiz.main argv) w))) = []
    /\ printed (trace (snd (run (UpdateMufiz.main argv) w)))
       = ((if dry_run_flag argv
           then ["Running in DRY RUN mode - no files will be modified"]
           else [])
          ++ [ "Fetching latest release information...";
               ("Latest version: " ++ UpdateMufiz.release_version rel)%string;
               "Loading current manifest...";
               String Json.newline "‚ùå Update failed!" ])%list.
Proof.
  intros w argv rel text v Hdisk Hapi Hjson Hfalse. run_main argv.
  destruct (dry_run_flag argv); mstep; cbn [boot world];
    rewrite Hdisk; cbn [negb]; mstep; cbn [boot world];
    rewrite Hapi; mstep; cbn [boot world];
    rewrite Hdisk, Hjson; mstep; rewrite Hfalse; cbn [negb]; mstep;
    cbn [boot trace app requests reads writes printed exn_str];
    repeat split.
Qed.

Lemma falsy_manifest_fails_silently_witness :
  exit_status
    (fst (run (UpdateMufiz.main ["update_mufiz.py"])
              (staged_world (ApiRelease demo_release)
                 (Parsed (Json.Arr [])) None "")))
  = 1.
Proof.
  exact (proj1 (falsy_manifest_fails_silently
                  (staged_world (ApiRelease demo_release)
                     (Parsed (Json.Arr [])) None "")
                  ["update_mufiz.py"] demo_release "(manifest)" (Json.Arr [])
                  eq_refl eq_refl eq_refl eq_refl)).
Defined.

(** X9.  When the manifest decodes to a value that is not an object and
    that Python takes for true (a non-empty list or string, a non-zero
    number, [true]), [update_manifest] raises an [AttributeError] that
    nothing catches: the process ends with status 1 without the failure
    line, and nothing is downloaded or written. *)
Theorem non_object_manifest_raises :
  forall (w : World) (argv : list string) (rel : release) (text : string)
         (v : Json.value),
    disk w = Some text ->
    api w = ApiRelease rel ->
    json_loads w text = Parsed v ->
    Json.truthy v = true ->
    is_obj v = false ->
    fst (run (UpdateMufiz.main argv) w)
    = Raise (AttributeError
               ("'" ++ Json.type_name v ++ "' object has no attribute 'get'"))
    /\ exit_status (fst (run (UpdateMufiz.main argv) w)) = 1
    /\ world (snd (run (UpdateMufiz.main argv) w)) = w
    /\ requests (trace (snd (run (UpdateMufiz.main argv) w)))
       = [UpdateMufiz.latest_url]
    /\ writes (trace (snd (run (UpdateMufiz.main argv) w))) = []
    /\ ~ In (String Json.newline "‚ùå Update failed!")
            (printed (trace (snd (run (UpdateMufiz.main argv) w)))).
Proof.
  intros w argv rel text v Hdisk Hapi Hjson Htrue Hobj. run_main argv.
  destruct (dry_run_flag argv); mstep; cbn [boot world];
    rewrite Hdisk; cbn [negb]; mstep; cbn [boot world];
    rewrite Hapi; mstep; cbn [boot world];
    rewrite Hdisk, Hjson; mstep; rewrite Htrue; cbn [negb];
    (destruct v; try discriminate Hobj); mstep;
    cbn [boot trace app requests reads writes printed exn_str
         Json.type_name];
    repeat split;
    intros H; cbn [In] in H;
    repeat (destruct H as [H|H]; [discriminate H|]); exact H.
Qed.

Lemma non_object_manifest_raises_witness :
  fst (run (UpdateMufiz.main ["update_mufiz.py"])
           (staged_world (ApiRelease demo_release)
              (Parsed (Json.Arr [Json.Int 1])) None ""))
  = Raise (AttributeError "'list' object has no attribute 'get'").
Proof.
  exact (proj1 (non_object_manifest_raises
                  (staged_world (ApiRelease demo_release)
                     (Parsed (Json.Arr [Json.Int 1])) None "")
                  ["update_mufiz.py"] demo_release "(manifest)"
                  (Json.Arr [Json.Int 1])
                  eq_refl eq_refl eq_refl eq_refl eq_refl)).
Defined.

(* ================================================================== *)
(** * Runs that reach the update step *)

Section UpdateRuns.
Import UpdateMufiz.
Local Open Scope list_scope.

Lemma requests_warning urls : requests (warning_events urls) = [].
Proof. unfold warning_events. destruct (negb _); reflexivity. Qed.

Lemma requests_closing dry w rel m : requests (closing_events dry w rel m) = [].
Proof.
  unfold closing_events. cbn zeta.
  destruct (all_downloads_ok _ _); [|reflexivity].
  destruct dry; [reflexivity|]. destruct (write_fault w); reflexivity.
Qed.

(** [main] around the update step: the exit status follows the result of
    the step, and the step's world, writes, requests and printed lines
    are those of the run. *)
Lemma main_update_run argv w rel text m :
  api w = ApiRelease rel ->
  disk w = Some text ->
  json_loads w text = Parsed (Json.Obj m) ->
  Json.truthy (Json.Obj m) = true ->
  Json.eq_str (release_version rel) (current_version_of m) = false ->
  let step :=
    apply_update (dry_run_flag argv) rel (release_version rel) m
      (current_version_of m)
      (extend (started argv (boot w)) (preamble w rel m)) in
  exit_status (fst (run (main argv) w))
  = match fst step with
    | Ok true => 0
    | Ok false => 1
    | Raise e => exit_status (@Raise unit e)
    end
  /\ world (snd (run (main argv) w)) = world (snd step)
  /\ writes (trace (snd (run (main argv) w))) = writes (trace (snd step))
  /\ requests (trace (snd (run (main argv) w))) = requests (trace (snd step))
  /\ (forall t, In t (printed (trace (snd step))) ->
                In t (printed (trace (snd (run (main argv) w))))).
Proof.
  intros Hapi Hdisk Hjson Hm Hneq step.
  pose proof (main_update argv w rel text m Hapi Hdisk Hjson Hm Hneq) as L.
  fold step in L. destruct step as [r s'] eqn:E.
  exact (main_after argv (boot w) text r s' Hdisk L).
Qed.

End UpdateRuns.

(** X10.  Once the versions are known to differ, the run requests the
    release description and then the resolved URLs in the order of the
    mapping, each at most once, and stops requesting after the first
    download that fails; a dry run makes the same requests. *)
Theorem downloads_in_order_until_failure :
  forall (w : World) (argv : list string) (rel : release) (text : string)
         (m : Dict.t Json.value),
    api w = ApiRelease rel ->
    disk w = Some text ->
    json_loads w text = Parsed (Json.Obj m) ->
    Json.truthy (Json.Obj m) = true ->
    Json.eq_str (UpdateMufiz.release_version rel)
                (UpdateMufiz.current_version_of m) = false ->
    requests (trace (snd (run (UpdateMufiz.main argv) w)))
    = UpdateMufiz.latest_url
      :: attempted w
           (map snd (UpdateMufiz.find_asset_urls rel
                       (UpdateMufiz.release_version rel))).
Proof.
  intros w argv rel text m Hapi Hdisk Hjson Hm Hneq.
  destruct (main_update_run argv w rel text m Hapi Hdisk Hjson Hm Hneq)
    as (_ & _ & _ & R & _).
  rewrite R.
  destruct (apply_update_trace (dry_run_flag argv) rel m
              (UpdateMufiz.current_version_of m)
              (extend (started argv (boot w)) (preamble w rel m)))
    as [x (T & _ & Rx & _)].
  cbn zeta in T, Rx. rewrite T. rewrite world_extend, world_started in Rx.
  cbn [boot world] in Rx.
  rewrite trace_extend, !requests_app, requests_started.
  cbn [requests boot trace app].
  rewrite !requests_app, requests_warning, requests_closing, Rx, app_nil_r.
  reflexivity.
Qed.

Lemma downloads_in_order_until_failure_witness :
  requests
    (trace (snd (run (UpdateMufiz.main ["update_mufiz.py"])
                     (demo_world old_version "https://example.org/x86.zip"))))
  = [ UpdateMufiz.latest_url;
      "https://example.org/x64.zip"; "https://example.org/x86.zip" ].
Proof.
  exact (downloads_in_order_until_failure
           (demo_world old_version "https://example.org/x86.zip")
           ["update_mufiz.py"] demo_release "(manifest)"
           (demo_manifest old_version)
           eq_refl eq_refl eq_refl eq_refl eq_refl).
Defined.

(** X11.  A number of resolved assets other than three is not an error:
    the run prints the warning with the number found and the labels
    found, goes on with what was found, and, when every download
    succeeds and the run is a dry run or the write succeeds, ends with
    exit status 0 having written the manifest (outside dry-run mode). *)
Theorem asset_shortfall_is_not_fatal :
  forall (w : World) (argv : list string) (rel : release) (text : string)
         (m : Dict.t Json.value),
    api w = ApiRelease rel ->
    disk w = Some text ->
    json_loads w text = Parsed (Json.Obj m) ->
    Json.truthy (Json.Obj m) = true ->
    Json.eq_str (UpdateMufiz.release_version rel)
                (UpdateMufiz.current_version_of m) = false ->
    (List.length (UpdateMufiz.find_asset_urls rel
                    (UpdateMufiz.release_version rel)) =? 3)%nat = false ->
    all_downloads_ok w
      (UpdateMufiz.find_asset_urls rel (UpdateMufiz.release_version rel))
    = true ->
    dry_run_flag argv || match write_fault w with None => true | _ => false end
    = true ->
    let urls :=
      UpdateMufiz.find_asset_urls rel (UpdateMufiz.release_version rel) in
    exit_status (fst (run (UpdateMufiz.main argv) w)) = 0
    /\ In ("Warning: Expected 3 assets, found "
           ++ Py.str_int (Z.of_nat (List.length urls)))
          (printed (trace (snd (run (UpdateMufiz.main argv) w))))
    /\ In ("Found assets: " ++ Py.repr_str_list (Dict.keys urls))
          (printed (trace (snd (run (UpdateMufiz.main argv) w))))
    /\ writes (trace (snd (run (UpdateMufiz.main argv) w)))
       = if dry_run_flag argv then [] else [committed_text w rel m].
Proof.
  intros w argv rel text m Hapi Hdisk Hjson Hm Hneq Hlen Hok Hmode urls.
  destruct (main_update_run argv w rel text m Hapi Hdisk Hjson Hm Hneq)
    as (A & _ & W & _ & P).
  destruct (apply_update_spec (dry_run_flag argv) rel m
              (UpdateMufiz.current_version_of m)
              (extend (started argv (boot w)) (preamble w rel m)))
    as [y S].
  destruct (apply_update_trace (dry_run_flag argv) rel m
              (UpdateMufiz.current_version_of m)
              (extend (started argv (boot w)) (preamble w rel m)))
    as [x (T & Wx & _)].
  cbn zeta in S, T. rewrite world_extend, world_started in S, T.
  cbn [boot world] in S, T. rewrite Hok in S.
  fold urls in T. unfold warning_events in T.
  unfold urls in T at 1. rewrite Hlen in T. cbn [negb app] in T.
  assert (Hres : fst (UpdateMufiz.apply_update (dry_run_flag argv) rel
                        (UpdateMufiz.release_version rel) m
                        (UpdateMufiz.current_version_of m)
                        (extend (started argv (boot w)) (preamble w rel m)))
                 = Ok true).
  { destruct (dry_run_flag argv).
    - destruct S as [S _]. rewrite S. reflexivity.
    - destruct (write_fault w); [discriminate Hmode|].
      destruct S as [S _]. rewrite S. reflexivity. }
  rewrite Hres in A.
  split; [exact A|].
  split; [apply P; rewrite T, !printed_app; cbn [printed]; in_search|].
  split; [apply P; rewrite T, !printed_app; cbn [printed]; in_search|].
  rewrite W, T, trace_extend, !writes_app, writes_started.
  cbn [writes boot trace app]. rewrite !writes_app, Wx.
  unfold closing_events. cbn zeta. rewrite Hok.
  destruct (dry_run_flag argv); [reflexivity|].
  destruct (write_fault w); [discriminate Hmode|reflexivity].
Qed.

Lemma asset_shortfall_is_not_fatal_witness :
  exit_status
    (fst (run (UpdateMufiz.main ["update_mufiz.py"])
              (staged_world (ApiRelease partial_release)
                 (Parsed (Json.Obj (demo_manifest old_version))) None "")))
  = 0
  /\ In "Warning: Expected 3 assets, found 1"
        (printed
           (trace (snd (run (UpdateMufiz.main ["update_mufiz.py"])
                            (staged_world (ApiRelease partial_release)
                               (Parsed (Json.Obj (demo_manifest old_version)))
                               None ""))))).
Proof.
  pose proof (asset_shortfall_is_not_fatal
                (staged_world (ApiRelease partial_release)
                   (Parsed (Json.Obj (demo_manifest old_version))) None "")
                ["update_mufiz.py"] partial_release "(manifest)"
                (demo_manifest old_version)
                eq_refl eq_refl eq_refl eq_refl eq_refl eq_refl eq_refl
                eq_refl) as H.
  split; [exact (proj1 H)|exact (proj1 (proj2 H))].
Defined.

(** X12.  When every download has succeeded and writing the manifest
    fails, the error is printed and the run ends with exit status 1; the
    file had been opened for writing with the complete new manifest, and
    holds whatever the failed write left there. *)
Theorem save_failure_is_reported :
  forall (w : World) (argv : list string) (rel : release) (text : string)
         (m : Dict.t Json.value) (f : write_failure),
    dry_run_flag argv = false ->
    api w = ApiRelease rel ->
    disk w = Some text ->
    json_loads w text = Parsed (Json.Obj m) ->
    Json.truthy (Json.Obj m) = true ->
    Json.eq_str (UpdateMufiz.release_version rel)
                (UpdateMufiz.current_version_of m) = false ->
    all_downloads_ok w
      (UpdateMufiz.find_asset_urls rel (UpdateMufiz.release_version rel))
    = true ->
    write_fault w = Some f ->
    exit_status (fst (run (UpdateMufiz.main argv) w)) = 1
    /\ disk (world (snd (run (UpdateMufiz.main argv) w))) = left_on_disk f
    /\ writes (trace (snd (run (UpdateMufiz.main argv) w)))
       = [committed_text w rel m]
    /\ In ("Error saving manifest: " ++ write_error f)
          (printed (trace (snd (run (UpdateMufiz.main argv) w))))
    /\ In "‚úó Failed to save manifest"
          (printed (trace (snd (run (UpdateMufiz.main argv) w)))).
Proof.
  intros w argv rel text m f Hwet Hapi Hdisk Hjson Hm Hneq Hok Hfault.
  destruct (main_update_run argv w rel text m Hapi Hdisk Hjson Hm Hneq)
    as (A & B & W & _ & P).
  destruct (apply_update_spec (dry_run_flag argv) rel m
              (UpdateMufiz.current_version_of m)
              (extend (started argv (boot w)) (preamble w rel m)))
    as [y S].
  destruct (apply_update_trace (dry_run_flag argv) rel m
              (UpdateMufiz.current_version_of m)
              (extend (started argv (boot w)) (preamble w rel m)))
    as [x (T & Wx & _)].
  cbn zeta in S, T. rewrite world_extend, world_started in S, T.
  cbn [boot world] in S, T.
  unfold closing_events in T. cbn zeta in T.
  rewrite Hwet in A, B, W, P.
  rewrite Hok, Hwet, Hfault in S, T. destruct S as [S _].
  rewrite S in A, B. cbn [fst snd world with_disk disk] in A, B.
  rewrite B.
  split; [exact A|]. split; [reflexivity|].
  split.
  - rewrite W, T, trace_extend, !writes_app, writes_started.
    cbn [writes boot trace app]. rewrite !writes_app, Wx.
    unfold warning_events. destruct (negb _); reflexivity.
  - split; apply P; rewrite T, !printed_app; cbn [printed];
      rewrite !printed_app; cbn [printed]; in_search.
Qed.

Lemma save_failure_is_reported_witness :
  exit_status
    (fst (run (UpdateMufiz.main ["update_mufiz.py"])
              (staged_world (ApiRelease demo_release)
                 (Parsed (Json.Obj (demo_manifest old_version)))
                 (Some (WriteFailure "[Errno 28] No space left on device"
                          (Some "")))
                 "")))
  = 1
  /\ disk (world
             (snd (run (UpdateMufiz.main ["update_mufiz.py"])
                       (staged_world (ApiRelease demo_release)
                          (Parsed (Json.Obj (demo_manifest old_version)))
                          (Some (WriteFailure
                                   "[Errno 28] No space left on device"
                                   (Some "")))
                          ""))))
     = Some "".
Proof.
  pose proof (save_failure_is_reported
                (staged_world (ApiRelease demo_release)
                   (Parsed (Json.Obj (demo_manifest old_version)))
                   (Some (WriteFailure "[Errno 28] No space left on device"
                            (Some "")))
                   "")
                ["update_mufiz.py"] demo_release "(manifest)"
                (demo_manifest old_version)
                (WriteFailure "[Errno 28] No space left on device" (Some ""))
                eq_refl eq_refl eq_refl eq_refl eq_refl eq_refl eq_refl
                eq_refl) as H.
  split; [exact (proj1 H)|exact (proj1 (proj2 H))].
Defined.

(* ================================================================== *)
(** * What exit status 0 means *)

Section Success.
Import UpdateMufiz.
Local Open Scope list_scope.

(** [update_manifest] returns [True] only with a release fetched and a
    manifest object loaded, and then only if the versions agree or the
    update went through; what it raises is never [SystemExit]. *)
Lemma update_manifest_success dry s :
  match fst (update_manifest dry s) with
  | Ok true =>
      exists rel text m,
        api (world s) = ApiRelease rel
        /\ disk (world s) = Some text
        /\ json_loads (world s) text = Parsed (Json.Obj m)
        /\ (Json.eq_str (release_version rel) (current_version_of m) = true
            \/ (all_downloads_ok (world s)
                  (find_asset_urls rel (release_version rel)) = true
                /\ (dry = true \/ write_fault (world s) = None)))
  | Ok false => True
  | Raise e => is_Exception e = true
  end.
Proof.
  destruct (api (world s)) as [err|rel] eqn:Hapi;
    [|destruct (disk (world s)) as [text|] eqn:Hdisk;
      [destruct (json_loads (world s) text) as [v|err] eqn:Hjson;
       [destruct (Json.truthy v) eqn:Ht;
        [destruct v as [| | | | | |m];
         [| | | | | |destruct (Json.eq_str (release_version rel)
                                 (current_version_of m)) eqn:He]|]|]|]].
  all: try (rewrite (update_manifest_loaded dry s rel text m Hapi Hdisk Hjson
                       (truthy_obj_nonempty m Ht)), He).
  - unfold update_manifest, get_latest_release, try_except. mstep.
    rewrite Hapi. cbn [is_RequestException]. mstep. exact I.
  - unfold update_manifest, get_latest_release, load_manifest,
      read_manifest, try_except; mstep; rewrite Hapi; mstep;
      rewrite ?Hdisk, ?Hjson; mstep; rewrite ?Ht; cbn [negb]; mstep.
    reflexivity.
  - unfold update_manifest, get_latest_release, load_manifest,
      read_manifest, try_except; mstep; rewrite Hapi; mstep;
      rewrite ?Hdisk, ?Hjson; mstep; rewrite ?Ht; cbn [negb]; mstep.
    reflexivity.
  - unfold update_manifest, get_latest_release, load_manifest,
      read_manifest, try_except; mstep; rewrite Hapi; mstep;
      rewrite ?Hdisk, ?Hjson; mstep; rewrite ?Ht; cbn [negb]; mstep.
    reflexivity.
  - unfold update_manifest, get_latest_release, load_manifest,
      read_manifest, try_except; mstep; rewrite Hapi; mstep;
      rewrite ?Hdisk, ?Hjson; mstep; rewrite ?Ht; cbn [negb]; mstep.
    reflexivity.
  - unfold update_manifest, get_latest_release, load_manifest,
      read_manifest, try_except; mstep; rewrite Hapi; mstep;
      rewrite ?Hdisk, ?Hjson; mstep; rewrite ?Ht; cbn [negb]; mstep.
    reflexivity.
  - unfold update_manifest, get_latest_release, load_manifest,
      read_manifest, try_except; mstep; rewrite Hapi; mstep;
      rewrite ?Hdisk, ?Hjson; mstep; rewrite ?Ht; cbn [negb]; mstep.
    reflexivity.
  - cbn [fst]. exists rel, text, m. repeat split; try assumption.
    left. exact He.
  - destruct (apply_update_spec dry rel m (current_version_of m)
                (extend s (preamble (world s) rel m))) as [y S].
    cbn zeta in S. rewrite world_extend in S.
    destruct (all_downloads_ok _ _) eqn:Hok.
    + destruct dry.
      * destruct S as [S _]. rewrite S. cbn [fst].
        exists rel, text, m. repeat split; try assumption.
        right. split; [exact Hok|left; reflexivity].
      * destruct (write_fault (world s)) eqn:Hf; destruct S as [S _];
          rewrite S; cbn [fst]; [exact I|].
        exists rel, text, m. repeat split; try assumption.
        right. split; [exact Hok|right; reflexivity].
    + destruct S as [S _]. rewrite S. exact I.
  - unfold update_manifest, get_latest_release, load_manifest,
      read_manifest, try_except; mstep; rewrite Hapi; mstep;
      rewrite ?Hdisk, ?Hjson; mstep; rewrite ?Ht; cbn [negb]; mstep.
    exact I.
  - unfold update_manifest, get_latest_release, load_manifest,
      read_manifest, try_except; mstep; rewrite Hapi; mstep;
      rewrite ?Hdisk, ?Hjson; mstep. exact I.
  - unfold update_manifest, get_latest_release, load_manifest,
      read_manifest, try_except; mstep; rewrite Hapi; mstep;
      rewrite ?Hdisk; mstep. exact I.
Qed.

End Success.

(** X13.  Exit status 0 means the manifest is current or was brought up
    to date: a release was fetched and a manifest object loaded, and
    either the versions agree or every resolved asset was downloaded and
    the run was a dry run or the write succeeded.  Every other run,
    whether it returns failure or raises, ends with status 1. *)
Theorem exit_status_zero_means_current :
  forall (w : World) (argv : list string),
    (exit_status (fst (run (UpdateMufiz.main argv) w)) = 0
     /\ exists rel text m,
          api w = ApiRelease rel
          /\ disk w = Some text
          /\ json_loads w text = Parsed (Json.Obj m)
          /\ (Json.eq_str (UpdateMufiz.release_version rel)
                          (UpdateMufiz.current_version_of m) = true
              \/ (all_downloads_ok w
                    (UpdateMufiz.find_asset_urls rel
                       (UpdateMufiz.release_version rel)) = true
                  /\ (dry_run_flag argv = true \/ write_fault w = None))))
    \/ exit_status (fst (run (UpdateMufiz.main argv) w)) = 1.
Proof.
  intros w argv.
  destruct (disk w) as [text|] eqn:Hdisk.
  2:{ right. unfold run, UpdateMufiz.main, UpdateMufiz.path_exists. mstep.
      cbn [boot world]. rewrite Hdisk. cbn [negb]. mstep. reflexivity. }
  destruct (UpdateMufiz.update_manifest (dry_run_flag argv)
              (started argv (boot w))) as [r s'] eqn:Hrun.
  destruct (main_after argv (boot w) text r s' Hdisk Hrun) as (A & _).
  pose proof (update_manifest_success (dry_run_flag argv)
                (started argv (boot w))) as S.
  rewrite Hrun in S. cbn [fst] in S.
  rewrite world_started in S. cbn [boot world] in S.
  unfold run. rewrite A.
  destruct r as [[|]|e].
  - left. split; [reflexivity|]. rewrite <- Hdisk. exact S.
  - right. reflexivity.
  - right. destruct e; try reflexivity. discriminate S.
Qed.

(* ================================================================== *)
(** * Running the updater again *)

(** X14.  After an update that went through, a second run (with any
    arguments) finds the manifest up to date, provided the decoder reads
    back from the written text the manifest that was written: it exits
    with status 0, requests only the release description and leaves the
    file as the first run wrote it. *)
Theorem second_run_is_up_to_date :
  forall (w : World) (argv argv' : list string) (rel : release)
         (text : string) (m : Dict.t Json.value),
    dry_run_flag argv = false ->
    api w = ApiRelease rel ->
    disk w = Some text ->
    json_loads w text = Parsed (Json.Obj m) ->
    Json.truthy (Json.Obj m) = true ->
    Json.eq_str (UpdateMufiz.release_version rel)
                (UpdateMufiz.current_version_of m) = false ->
    all_downloads_ok w
      (UpdateMufiz.find_asset_urls rel (UpdateMufiz.release_version rel))
    = true ->
    write_fault w = None ->
    json_loads w (committed_text w rel m)
    = Parsed (Json.Obj
                (UpdateMufiz.updated_manifest m
                   (UpdateMufiz.release_version rel)
                   (arch_section w
                      (UpdateMufiz.find_asset_urls rel
                         (UpdateMufiz.release_version rel))))) ->
    let w1 := world (snd (run (UpdateMufiz.main argv) w)) in
    disk w1 = Some (committed_text w rel m)
    /\ exit_status (fst (run (UpdateMufiz.main argv') w1)) = 0
    /\ world (snd (run (UpdateMufiz.main argv') w1)) = w1
    /\ writes (trace (snd (run (UpdateMufiz.main argv') w1))) = []
    /\ requests (trace (snd (run (UpdateMufiz.main argv') w1)))
       = [UpdateMufiz.latest_url]
    /\ In "Manifest is already up to date!"
          (printed (trace (snd (run (UpdateMufiz.main argv') w1)))).
Proof.
  intros w argv argv' rel text m Hwet Hapi Hdisk Hjson Hm Hneq Hok Hwrite
    Hback w1.
  assert (Hw1 : w1 = with_disk w (Some (committed_text w rel m))).
  { unfold w1.
    destruct (main_update_run argv w rel text m Hapi Hdisk Hjson Hm Hneq)
      as (_ & B & _).
    rewrite B.
    destruct (apply_update_spec (dry_run_flag argv) rel m
                (UpdateMufiz.current_version_of m)
                (extend (started argv (boot w)) (preamble w rel m)))
      as [y S].
    cbn zeta in S. rewrite world_extend, world_started in S.
    cbn [boot world] in S. rewrite Hok, Hwet, Hwrite in S.
    destruct S as [S _]. rewrite Hwet, S. reflexivity. }
  clearbody w1. subst w1.
  set (w1 := with_disk w (Some (committed_text w rel m))).
  set (m1 := UpdateMufiz.updated_manifest m (UpdateMufiz.release_version rel)
               (arch_section w
                  (UpdateMufiz.find_asset_urls rel
                     (UpdateMufiz.release_version rel)))) in *.
  assert (Hver : Dict.get m1 "version"
                 = Some (Json.Str (UpdateMufiz.release_version rel))).
  { unfold m1, UpdateMufiz.updated_manifest.
    rewrite get_set_other by discriminate. apply get_set_same. }
  assert (Hm1 : m1 <> []) by (destruct m1; [discriminate Hver|discriminate]).
  pose proof (update_manifest_loaded (dry_run_flag argv')
                (started argv' (boot w1)) rel (committed_text w rel m) m1)
    as L.
  rewrite world_started in L. cbn [boot world] in L.
  specialize (L Hapi eq_refl Hback Hm1).
  unfold UpdateMufiz.current_version_of in L at 1. rewrite Hver in L.
  cbn [Json.eq_str] in L. rewrite String.eqb_refl in L.
  destruct (main_after argv' (boot w1) (committed_text w rel m) _ _ eq_refl L)
    as (A & B & C & D & E).
  split; [reflexivity|].
  unfold run. rewrite A, B, C, D.
  rewrite world_extend, world_started, trace_extend, writes_app,
    requests_app, writes_started, requests_started, writes_app, requests_app.
  repeat split.
  apply E. rewrite trace_extend, printed_app, printed_app.
  apply in_or_app. right. apply in_or_app. right. left. reflexivity.
Qed.

Lemma second_run_is_up_to_date_witness :
  exit_status
    (fst (run (UpdateMufiz.main ["update_mufiz.py"; "-n"])
              (world (snd (run (UpdateMufiz.main ["update_mufiz.py"])
                               rereading_world)))))
  = 0.
Proof.
  exact (proj1 (proj2 (second_run_is_up_to_date
                         rereading_world ["update_mufiz.py"]
                         ["update_mufiz.py"; "-n"] demo_release "(manifest)"
                         (demo_manifest old_version)
                         eq_refl eq_refl eq_refl eq_refl eq_refl eq_refl
                         eq_refl eq_refl eq_refl))).
Defined.

(* ================================================================== *)
(** * Runs of the reporter *)

(** Run the three rounds of the loop, splitting on what each link
    answers. *)
Ltac reporter_rounds w :=
  unfold run, Hashes.main, Hashes.links;
  cbn [Hashes.enumerate_from Hashes.collect]; mstep;
  rewrite get_whole_eq; cbn [boot world];
  destruct (web w (Hashes.link "x86_64-windows")) as [?e0|?r0];
  [|destruct (broken r0) eqn:?B0;
    [|mstep; rewrite get_whole_eq, world_extend; cbn [boot world];
      destruct (web w (Hashes.link "x86-windows-gnu")) as [?e1|?r1];
      [|destruct (broken r1) eqn:?B1;
        [|mstep; rewrite get_whole_eq, world_extend; cbn [boot world];
          destruct (web w (Hashes.link "aarch64-windows")) as [?e2|?r2];
          [|destruct (broken r2) eqn:?B2; [|mstep]]]]]].

(** X15.  When the three links are answered and their transfers complete,
    the reporter prints the report and ends normally, whatever the status
    codes of the answers: the body of an error page is hashed like any
    other. *)
Theorem reporter_hashes_any_answer :
  forall (w : World) (r0 r1 r2 : response),
    map (web w) Hashes.links = [Answered r0; Answered r1; Answered r2] ->
    broken r0 = None ->
    broken r1 = None ->
    broken r2 = None ->
    fst (run Hashes.main w) = Ok tt
    /\ trace (snd (run Hashes.main w))
       = [ EGet (nth 0 Hashes.links "");
           EGet (nth 1 Hashes.links "");
           EGet (nth 2 Hashes.links "");
           EPrint (Json.dumps None true
                     (report (nth 0 Hashes.links "") (reported_digest r0)
                             (nth 1 Hashes.links "") (reported_digest r1)
                             (nth 2 Hashes.links "") (reported_digest r2))) ].
Proof.
  intros w r0 r1 r2 Hweb H0 H1 H2.
  cbn [map Hashes.links] in Hweb.
  injection Hweb as W0 W1 W2.
  unfold run, Hashes.main, Hashes.links.
  cbn [Hashes.enumerate_from Hashes.collect]. mstep.
  rewrite get_whole_eq. cbn [boot world]. rewrite W0, H0. mstep.
  rewrite get_whole_eq, world_extend. cbn [boot world]. rewrite W1, H1. mstep.
  rewrite get_whole_eq, world_extend. cbn [boot world]. rewrite W2, H2. mstep.
  split; reflexivity.
Qed.

Lemma reporter_hashes_any_answer_witness :
  fst (run Hashes.main
           (staged_world (ApiError "") (Malformed "") None
              (Hashes.link "x86-windows-gnu")))
  = Ok tt.
Proof.
  exact (proj1 (reporter_hashes_any_answer
                  (staged_world (ApiError "") (Malformed "") None
                     (Hashes.link "x86-windows-gnu"))
                  (Response 200 "OK"
                     [Hashlib.bytes_of_string (Hashes.link "x86_64-windows")]
                     None)
                  (Response 404 "Not Found" [] None)
                  (Response 200 "OK"
                     [Hashlib.bytes_of_string (Hashes.link "aarch64-windows")]
                     None)
                  eq_refl eq_refl eq_refl eq_refl)).
Defined.

(** X16.  When one of the three links cannot be reached or its transfer
    breaks, the reporter prints nothing at all, not even the entries it
    had already computed: the request error ends the script, with exit
    status 1. *)
Theorem reporter_prints_nothing_on_failure :
  forall w : World,
    forallb (link_ok w) Hashes.links = false ->
    printed (trace (snd (run Hashes.main w))) = []
    /\ exit_status (fst (run Hashes.main w)) = 1
    /\ exists msg, fst (run Hashes.main w) = Raise (RequestException msg).
Proof.
  intros w H. unfold Hashes.links in H. cbn [forallb] in H.
  unfold link_ok in H. revert H.
  reporter_rounds w; intros H;
    rewrite ?B0, ?B1, ?B2 in H; cbn [andb] in H;
    try discriminate H;
    (split; [reflexivity|]; split; [reflexivity|]; eexists; reflexivity).
Qed.

Lemma reporter_prints_nothing_on_failure_witness :
  printed (trace (snd (run Hashes.main empty_manifest_world))) = [].
Proof.
  exact (proj1 (reporter_prints_nothing_on_failure
                  empty_manifest_world eq_refl)).
Defined.

(** X17.  The reporter reads and writes no file and changes nothing: in
    every world it only requests links of its list, from the first on, in
    order. *)
Theorem reporter_only_requests_links :
  forall w : World,
    world (snd (run Hashes.main w)) = w
    /\ writes (trace (snd (run Hashes.main w))) = []
    /\ reads (trace (snd (run Hashes.main w))) = O
    /\ is_prefix (requests (trace (snd (run Hashes.main w)))) Hashes.links
       = true.
Proof.
  intros w. reporter_rounds w; repeat split.
Qed.

(* ================================================================== *)
(** * update_manifest without the check of main *)

(** X18.  Called where the manifest file is missing, [update_manifest]
    itself does not raise: after fetching the release it prints the
    "No such file" error of the failed [open] and returns [False],
    having downloaded and written nothing. *)
Theorem update_manifest_without_file :
  forall (dry : bool) (s : Sys) (rel : release),
    api (world s) = ApiRelease rel ->
    disk (world s) = None ->
    fst (UpdateMufiz.update_manifest dry s) = Ok false
    /\ world (snd (UpdateMufiz.update_manifest dry s)) = world s
    /\ requests (trace (snd (UpdateMufiz.update_manifest dry s)))
       = (requests (trace s) ++ [UpdateMufiz.latest_url])%list
    /\ writes (trace (snd (UpdateMufiz.update_manifest dry s)))
       = writes (trace s)
    /\ In "Error loading manifest: [Errno 2] No such file or directory: 'bucket/MufiZ.json'"
          (printed (trace (snd (UpdateMufiz.update_manifest dry s)))).
Proof.
  intros dry s rel Hapi Hdisk.
  unfold UpdateMufiz.update_manifest, UpdateMufiz.get_latest_release,
    UpdateMufiz.load_manifest, UpdateMufiz.read_manifest, try_except.
  mstep. rewrite Hapi. mstep. rewrite Hdisk. mstep.
  rewrite trace_extend, requests_app, writes_app, printed_app.
  cbn [requests writes printed exn_str].
  rewrite app_nil_r.
  repeat split. apply in_or_app. right. in_search.
Qed.

Lemma update_manifest_without_file_witness :
  fst (UpdateMufiz.update_manifest false
         (boot (with_disk (demo_world old_version "") None)))
  = Ok false.
Proof.
  exact (proj1 (update_manifest_without_file
                  false (boot (with_disk (demo_world old_version "") None))
                  demo_release eq_refl eq_refl)).
Defined.

(* ================================================================== *)
(** * Which labels find_asset_urls returns *)

Lemma last_url_some (l : list asset) (label : string) :
  (match last_url l label with Some _ => true | None => false end)
  = existsb (resolves_to label) l.
Proof.
  induction l as [|a l IH]; [reflexivity|].
  cbn [last_url existsb]. rewrite <- IH.
  destruct (last_url l label).
  - rewrite orb_true_r. reflexivity.
  - rewrite orb_false_r. destruct (resolves_to label a); reflexivity.
Qed.

(** X19.  A label is among the resolved ones exactly when some asset of
    the release resolves to it. *)
Theorem find_asset_urls_has_label :
  forall (r : release) (version label : string),
    Dict.mem (UpdateMufiz.find_asset_urls r version) label
    = existsb (resolves_to label) (assets_of r).
Proof.
  intros r version label. unfold Dict.mem, UpdateMufiz.find_asset_urls.
  fold (assets_of r). rewrite get_fold_match_arch, <- last_url_some.
  destruct (last_url (assets_of r) label); reflexivity.
Qed.
